(** * connector-rss-enhancer: the extraction and rendering pipeline

    A shallow embedding of [src/utils/html_processor.py] (class
    [HTMLProcessor]) and the properties its specification states about it.

    Conventions of the embedding.

    - A Python [str] is a Rocq [string], one character per code point.  The
      character predicates ([isspace], [isdigit], the regular-expression
      classes) are Python's, restricted to code points below 256.  Text of the
      source outside that range (the Japanese comments inside the stylesheets)
      stands in its UTF-8 encoding.
    - A Python exception is a value [Raise e] of the type [result]; only
      instances of [Exception] are modelled (what [except Exception] and a
      bare [except] both catch).
    - Everything outside the interpreter (the network, newspaper's parser,
      lxml, the file system, child processes) is an oracle of the record
      [env]; an oracle reads the [world] the call is made in, so its answers
      may change over time.  The embedding itself records every external call
      and every log line in the [world]. *)

From Stdlib Require Import Ascii String ZArith Lia Bool List.
From stdpp Require Import base decidable option list strings gmap pretty.

Local Open Scope Z_scope.
#[local] Set Warnings "-register-all".

(** ** Python values the pipeline computes with *)

Module Py.

(** The double quote, which a string literal of this file cannot hold. *)
Definition dq : string := String (ascii_of_nat 34) EmptyString.
(** The single quote. *)
Definition sq : string := String (ascii_of_nat 39) EmptyString.
(** The line feed. *)
Definition nl : string := String (ascii_of_nat 10) EmptyString.

Definition code (c : ascii) : nat := nat_of_ascii c.

Definition in_range (lo hi : nat) (c : ascii) : bool :=
  (Nat.leb lo (code c) && Nat.leb (code c) hi)%bool.

(** [str.isspace] on one character: TAB..CR, FS..US, SPACE, NEL, NBSP. *)
Definition isspace (c : ascii) : bool :=
  (in_range 9 13 c || in_range 28 32 c || Nat.eqb (code c) 133
   || Nat.eqb (code c) 160)%bool.

(** Characters for which [str.isdecimal] holds. *)
Definition isdecimal (c : ascii) : bool := in_range 48 57 c.

(** Characters for which [str.isdigit] holds: the decimal digits and the
    superscripts two, three and one. *)
Definition isdigit_char (c : ascii) : bool :=
  (isdecimal c || Nat.eqb (code c) 178 || Nat.eqb (code c) 179
   || Nat.eqb (code c) 185)%bool.

(** Characters for which [str.isalnum] holds. *)
Definition isalnum (c : ascii) : bool :=
  (in_range 48 57 c || in_range 65 90 c || in_range 97 122 c
   || Nat.eqb (code c) 170 || in_range 178 179 c || Nat.eqb (code c) 181
   || in_range 185 186 c || in_range 188 190 c || in_range 192 214 c
   || in_range 216 246 c || in_range 248 255 c)%bool.

Definition is_upper (c : ascii) : bool :=
  (in_range 65 90 c || in_range 192 214 c || in_range 216 222 c)%bool.

(** [str.lower] on one character. *)
Definition lower_char (c : ascii) : ascii :=
  if is_upper c then ascii_of_nat (code c + 32) else c.

Fixpoint lower (s : string) : string :=
  match s with
  | EmptyString => EmptyString
  | String c t => String (lower_char c) (lower t)
  end.

Definition len (s : string) : Z := Z.of_nat (String.length s).

(** Truth value of a [str]. *)
Definition nonempty (s : string) : bool :=
  match s with EmptyString => false | _ => true end.

Fixpoint lstrip (s : string) : string :=
  match s with
  | EmptyString => EmptyString
  | String c t => if isspace c then lstrip t else s
  end.

(** [rstrip] keeps a character when it is no whitespace or something that is
    kept follows it. *)
Fixpoint rstrip (s : string) : string :=
  match s with
  | EmptyString => EmptyString
  | String c t =>
      match rstrip t with
      | EmptyString => if isspace c then EmptyString else String c EmptyString
      | t' => String c t'
      end
  end.

Definition strip (s : string) : string := rstrip (lstrip s).

(** [s.isdigit()]. *)
Definition isdigit (s : string) : bool :=
  (nonempty s && forallb isdigit_char (list_ascii_of_string s))%bool.

(** [s.startswith(p)]. *)
Definition startswith (p s : string) : bool := String.prefix p s.

(** [needle in hay]. *)
Fixpoint contains (needle hay : string) : bool :=
  (String.prefix needle hay
   || match hay with
      | EmptyString => false
      | String _ t => contains needle t
      end)%bool.

Fixpoint drop (n : nat) (s : string) : string :=
  match n, s with
  | O, _ => s
  | S _, EmptyString => EmptyString
  | S n', String _ t => drop n' t
  end.

Fixpoint take (n : nat) (s : string) : string :=
  match n, s with
  | O, _ => EmptyString
  | S _, EmptyString => EmptyString
  | S n', String c t => String c (take n' t)
  end.

(** [s.replace(old, new)] for a non-empty [old]: [skip] counts the characters
    of a replaced occurrence still to be passed over. *)
Fixpoint replace_from (skip : nat) (old new s : string) : string :=
  match s with
  | EmptyString => EmptyString
  | String c t =>
      match skip with
      | S k => replace_from k old new t
      | O =>
          if String.prefix old s
          then new +:+ replace_from (String.length old - 1) old new t
          else String c (replace_from 0 old new t)
      end
  end.

Definition replace (old new s : string) : string := replace_from 0 old new s.

(** Number of non-overlapping occurrences, scanning from the left:
    [s.count(sub)] for a non-empty [sub]. *)
Fixpoint count_from (skip : nat) (sub s : string) : nat :=
  match s with
  | EmptyString => O
  | String c t =>
      match skip with
      | S k => count_from k sub t
      | O =>
          if String.prefix sub s
          then S (count_from (String.length sub - 1) sub t)
          else count_from 0 sub t
      end
  end.

Definition count (sub s : string) : nat := count_from 0 sub s.

(** [s[lo:hi]] with Python's treatment of negative and out-of-range bounds. *)
Definition clamp (n : Z) (i : Z) : nat :=
  Z.to_nat (Z.max 0 (Z.min n (if i <? 0 then i + n else i))).

Definition slice (s : string) (lo hi : Z) : string :=
  let n := len s in
  let a := clamp n lo in
  let b := clamp n hi in
  take (b - a) (drop a s).

(** [s[:hi]] and [s[lo:]]. *)
Definition slice_to (s : string) (hi : Z) : string := slice s 0 hi.
Definition slice_from (s : string) (lo : Z) : string :=
  drop (clamp (len s) lo) s.

(** [s.find(sub)]: the first index at which [sub] starts. *)
Fixpoint find_from (i : nat) (sub s : string) : option nat :=
  if String.prefix sub s then Some i
  else match s with
       | EmptyString => None
       | String _ t => find_from (S i) sub t
       end.

Definition find (sub s : string) : option nat := find_from 0 sub s.

(** [s.split(sep)] for a non-empty [sep]. *)
Fixpoint split_from (skip : nat) (sep : string) (cur : string) (s : string)
  : list string :=
  match s with
  | EmptyString => [cur]
  | String c t =>
      match skip with
      | S k => split_from k sep cur t
      | O =>
          if String.prefix sep s
          then cur :: split_from (String.length sep - 1) sep EmptyString t
          else split_from 0 sep (cur +:+ String c EmptyString) t
      end
  end.

Definition split (sep s : string) : list string :=
  split_from 0 sep EmptyString s.

(** Exceptions: the class decides which [except] clause takes it, [str(e)]
    is what the handlers log and return. *)
Inductive exn_class :=
| ArticleException | TimeoutExpired | ValueError | AttributeError
| OSError | OtherException.

Record exn := Exn { exn_class_of : exn_class; exn_str : string }.

Inductive result (A : Type) : Type :=
| Ok (a : A)
| Raise (e : exn).
Arguments Ok {A} a.
Arguments Raise {A} e.

(** [int(s)] for a string on which [s.isdigit()] holds: the superscript
    digits pass [isdigit] and are no literal of [int]. *)
Fixpoint int_digits (acc : Z) (s : string) : result Z :=
  match s with
  | EmptyString => Ok acc
  | String c t =>
      if isdecimal c then int_digits (10 * acc + Z.of_nat (code c - 48)) t
      else Raise (Exn ValueError "invalid literal for int() with base 10")
  end.

Definition int (s : string) : result Z := int_digits 0 s.

(** The values a result dictionary holds. *)
Inductive value :=
| VNone
| VStr (s : string)
| VList (l : list string).

Definition truthy (v : value) : bool :=
  match v with
  | VNone => false
  | VStr s => nonempty s
  | VList l => match l with [] => false | _ => true end
  end.

End Py.

Export Py.

(** ** [urllib.parse.urlparse]

    The scheme and the network location as CPython's [urlsplit] computes
    them, in the part all versions of Python 3 share: a scheme is what stands
    before the first colon when it starts with an ASCII letter and holds
    scheme characters only; a network location follows two slashes and runs
    to the first slash, question mark or hash; one bracket without the other
    in it is a [ValueError].  (Later versions also strip leading control
    characters and reject more bracketed hosts.) *)

Module Url.

Definition is_ascii_alpha (c : ascii) : bool :=
  (in_range 65 90 c || in_range 97 122 c)%bool.

Definition scheme_char (c : ascii) : bool :=
  (is_ascii_alpha c || in_range 48 57 c || Nat.eqb (code c) 43
   || Nat.eqb (code c) 45 || Nat.eqb (code c) 46)%bool.

Definition split_scheme (url : string) : string * string :=
  match find ":" url, url with
  | Some (S i), String c0 _ =>
      if (is_ascii_alpha c0
          && forallb scheme_char (list_ascii_of_string (take (S i) url)))%bool
      then (lower (take (S i) url), drop (S (S i)) url)
      else (EmptyString, url)
  | _, _ => (EmptyString, url)
  end.

Definition is_delim (c : ascii) : bool :=
  (Nat.eqb (code c) 47 || Nat.eqb (code c) 63 || Nat.eqb (code c) 35)%bool.

Fixpoint until_delim (s : string) : string :=
  match s with
  | EmptyString => EmptyString
  | String c t => if is_delim c then EmptyString else String c (until_delim t)
  end.

Record parsed := Parsed { scheme : string; netloc : string }.

Definition urlparse (url : string) : result parsed :=
  let '(sch, rest) := split_scheme url in
  if String.prefix "//" rest then
    let loc := until_delim (drop 2 rest) in
    if ((contains "[" loc && negb (contains "]" loc))
        || (contains "]" loc && negb (contains "[" loc)))%bool
    then Raise (Exn ValueError "Invalid IPv6 URL")
    else Ok (Parsed sch loc)
  else Ok (Parsed sch EmptyString).

End Url.

(** ** Regular expressions

    The part of Python's [re] the pipeline uses: a backtracking matcher with
    Python's priorities (alternatives left to right, greedy repetition
    longest first, lazy repetition shortest first), and a parser of the
    pattern syntax, so that the patterns below are the source's, character
    by character. *)

Module Re.

Inductive item :=
| IChar (c : ascii)
| IRange (lo hi : ascii)
| IWord                                 (* \w *)
| ISpace                                (* \s *)
| IDigit.                               (* \d *)

Inductive regex :=
| Empty
| Fail
| Char (c : ascii)
| Dot
| Class (negated : bool) (items : list item)
| Seq (r1 r2 : regex)
| Alt (r1 r2 : regex)
| Star (greedy : bool) (r : regex)
| Group (index : nat) (r : regex)
| NotAhead (r : regex)                  (* (?!r) *)
| Boundary.                             (* \b *)

Record flags := Flags { ignorecase : bool; dotall : bool }.

Definition NOFLAG : flags := Flags false false.
Definition IGNORECASE : flags := Flags true false.
Definition DOTALL : flags := Flags false true.
Definition DOTALL_IGNORECASE : flags := Flags true true.

Definition is_lower (c : ascii) : bool :=
  (in_range 97 122 c || in_range 224 246 c || in_range 248 254 c)%bool.

Definition upper_char (c : ascii) : ascii :=
  if is_lower c then ascii_of_nat (code c - 32) else c.

Definition is_word (c : ascii) : bool := (isalnum c || Nat.eqb (code c) 95)%bool.

Definition in_item (c : ascii) (i : item) : bool :=
  match i with
  | IChar a => Ascii.eqb a c
  | IRange lo hi => in_range (code lo) (code hi) c
  | IWord => is_word c
  | ISpace => isspace c
  | IDigit => isdecimal c
  end.

Definition in_class (negated : bool) (items : list item) (c : ascii) : bool :=
  xorb negated (existsb (in_item c) items).

Definition char_matches (fl : flags) (p c : ascii) : bool :=
  if ignorecase fl then Ascii.eqb (lower_char p) (lower_char c)
  else Ascii.eqb p c.

Definition class_matches (fl : flags) (negated : bool) (items : list item)
    (c : ascii) : bool :=
  if ignorecase fl
  then (in_class negated items (lower_char c)
        || in_class negated items (upper_char (lower_char c)))%bool
  else in_class negated items c.

(** Where the matcher stands: the character before, the index, what is left
    of the subject, and the groups closed so far (latest first). *)
Record state := State {
  prev : option ascii;
  pos : nat;
  rest : string;
  groups : list (nat * (nat * nat))
}.

Definition advance (s : state) : option (ascii * state) :=
  match rest s with
  | EmptyString => None
  | String c t => Some (c, State (Some c) (S (pos s)) t (groups s))
  end.

Definition one (ok : ascii -> bool) (s : state) (k : state -> option state)
  : option state :=
  match advance s with
  | Some (c, s') => if ok c then k s' else None
  | None => None
  end.

Definition at_boundary (s : state) : bool :=
  xorb (match prev s with Some c => is_word c | None => false end)
       (match rest s with String c _ => is_word c | EmptyString => false end).

(** [run fl r s k]: the first way, in Python's order, to match [r] from [s]
    such that the continuation [k] succeeds on where the match ends.  A
    repetition gives up an iteration that consumed nothing. *)
Fixpoint run (fl : flags) (r : regex) (s : state) (k : state -> option state)
    {struct r} : option state :=
  match r with
  | Empty => k s
  | Fail => None
  | Char p => one (char_matches fl p) s k
  | Dot => one (fun c => (dotall fl || negb (Nat.eqb (code c) 10))%bool) s k
  | Class negated items => one (class_matches fl negated items) s k
  | Seq r1 r2 => run fl r1 s (fun s1 => run fl r2 s1 k)
  | Alt r1 r2 =>
      match run fl r1 s k with
      | Some e => Some e
      | None => run fl r2 s k
      end
  | Star greedy r1 =>
      (fix loop (fuel : nat) (s : state) {struct fuel} : option state :=
         match fuel with
         | O => k s
         | S fuel' =>
             let again := fun _ : unit =>
               run fl r1 s (fun s1 => if Nat.ltb (pos s) (pos s1)
                                      then loop fuel' s1 else None) in
             if greedy
             then match again tt with Some e => Some e | None => k s end
             else match k s with Some e => Some e | None => again tt end
         end) (S (String.length (rest s))) s
  | Group i r1 =>
      run fl r1 s
          (fun s1 => k (State (prev s1) (pos s1) (rest s1)
                              ((i, (pos s, pos s1)) :: groups s1)))
  | NotAhead r1 =>
      match run fl r1 s Some with
      | Some _ => None
      | None => k s
      end
  | Boundary => if at_boundary s then k s else None
  end.

(** *** The pattern syntax *)

Definition parsed := option (regex * string * nat).

Fixpoint repeat_seq (n : nat) (r : regex) : regex :=
  match n with
  | O => Empty
  | S O => r
  | S n' => Seq r (repeat_seq n' r)
  end.

(** A count [{n}] at the head of the input. *)
Fixpoint count_digits (acc : nat) (seen : bool) (s : string)
  : option (nat * string) :=
  match s with
  | String c t =>
      if isdecimal c then count_digits (10 * acc + (code c - 48)) true t
      else if (Nat.eqb (code c) 125 && seen)%bool then Some (acc, t)
      else None
  | EmptyString => None
  end.

(** The quantifier that follows an atom, if any. *)
Definition quantified (a : regex) (s : string) : regex * string :=
  match s with
  | String "*" (String "?" t) => (Star false a, t)
  | String "*" t => (Star true a, t)
  | String "+" (String "?" t) => (Seq a (Star false a), t)
  | String "+" t => (Seq a (Star true a), t)
  | String "?" (String "?" t) => (Alt Empty a, t)
  | String "?" t => (Alt a Empty, t)
  | String "{" t =>
      match count_digits 0 false t with
      | Some (n, t') => (repeat_seq n a, t')
      | None => (a, s)
      end
  | _ => (a, s)
  end%char.

Definition is_ascii_letter_or_digit (c : ascii) : bool :=
  (in_range 48 57 c || in_range 65 90 c || in_range 97 122 c)%bool.

(** The character an escape stands for inside and outside a class; the
    class escapes apart, a letter or digit after the backslash is only
    accepted when it is one of n, t, r. *)
Definition escaped_char (c : ascii) : option ascii :=
  if Ascii.eqb c "n" then Some (ascii_of_nat 10)
  else if Ascii.eqb c "t" then Some (ascii_of_nat 9)
  else if Ascii.eqb c "r" then Some (ascii_of_nat 13)
  else if is_ascii_letter_or_digit c then None
  else Some c.

Definition escaped_item (c : ascii) : option item :=
  if Ascii.eqb c "w" then Some IWord
  else if Ascii.eqb c "s" then Some ISpace
  else if Ascii.eqb c "d" then Some IDigit
  else option_map IChar (escaped_char c).

(** The items of a class up to its closing bracket. *)
Fixpoint class_items (fuel : nat) (s : string) : option (list item * string) :=
  match fuel with
  | O => None
  | S fuel' =>
      match s with
      | EmptyString => None
      | String "]" t => Some ([], t)
      | String "\" (String c t) =>
          match escaped_item c, class_items fuel' t with
          | Some i, Some (items, t') => Some (i :: items, t')
          | _, _ => None
          end
      | String lo (String "-" (String hi t)) =>
          if Ascii.eqb hi "]" then
            Some ([IChar lo; IChar "-"], t)
          else
            match class_items fuel' t with
            | Some (items, t') => Some (IRange lo hi :: items, t')
            | None => None
            end
      | String c t =>
          match class_items fuel' t with
          | Some (items, t') => Some (IChar c :: items, t')
          | None => None
          end
      end
  end%char.

Definition escaped_atom (c : ascii) : option regex :=
  if Ascii.eqb c "b" then Some Boundary
  else if Ascii.eqb c "w" then Some (Class false [IWord])
  else if Ascii.eqb c "s" then Some (Class false [ISpace])
  else if Ascii.eqb c "d" then Some (Class false [IDigit])
  else if Ascii.eqb c "W" then Some (Class true [IWord])
  else if Ascii.eqb c "S" then Some (Class true [ISpace])
  else if Ascii.eqb c "D" then Some (Class true [IDigit])
  else option_map Char (escaped_char c).

(** Alternatives, sequences and atoms; the number is that of the last
    capturing group opened so far. *)
Fixpoint parse_alt (fuel : nat) (s : string) (g : nat) : parsed :=
  match fuel with
  | O => None
  | S fuel' =>
      match parse_seq fuel' s g with
      | Some (r1, String "|"%char t, g1) =>
          match parse_alt fuel' t g1 with
          | Some (r2, t', g2) => Some (Alt r1 r2, t', g2)
          | None => None
          end
      | other => other
      end
  end
with parse_seq (fuel : nat) (s : string) (g : nat) : parsed :=
  match fuel with
  | O => None
  | S fuel' =>
      match s with
      | EmptyString => Some (Empty, s, g)
      | String "|"%char _ => Some (Empty, s, g)
      | String ")"%char _ => Some (Empty, s, g)
      | _ =>
          match parse_atom fuel' s g with
          | Some (a, t, g1) =>
              let '(q, t') := quantified a t in
              match parse_seq fuel' t' g1 with
              | Some (Empty, t'', g2) => Some (q, t'', g2)
              | Some (r, t'', g2) => Some (Seq q r, t'', g2)
              | None => None
              end
          | None => None
          end
      end
  end
with parse_atom (fuel : nat) (s : string) (g : nat) : parsed :=
  match fuel with
  | O => None
  | S fuel' =>
      match s with
      | EmptyString => None
      | String "("%char (String "?"%char (String ":"%char t)) =>
          match parse_alt fuel' t g with
          | Some (r, String ")"%char t', g') => Some (r, t', g')
          | _ => None
          end
      | String "("%char (String "?"%char (String "!"%char t)) =>
          match parse_alt fuel' t g with
          | Some (r, String ")"%char t', g') => Some (NotAhead r, t', g')
          | _ => None
          end
      | String "("%char (String "?"%char _) => None
      | String "("%char t =>
          match parse_alt fuel' t (S g) with
          | Some (r, String ")"%char t', g') => Some (Group (S g) r, t', g')
          | _ => None
          end
      | String "["%char (String "^"%char t) =>
          match class_items (S (String.length t)) t with
          | Some (items, t') => Some (Class true items, t', g)
          | None => None
          end
      | String "["%char t =>
          match class_items (S (String.length t)) t with
          | Some (items, t') => Some (Class false items, t', g)
          | None => None
          end
      | String "."%char t => Some (Dot, t, g)
      | String "\"%char (String c t) =>
          match escaped_atom c with
          | Some r => Some (r, t, g)
          | None => None
          end
      | String "\"%char EmptyString => None
      | String "^"%char _ => None
      | String "$"%char _ => None
      | String "*"%char _ => None
      | String "+"%char _ => None
      | String "?"%char _ => None
      | String c t => Some (Char c, t, g)
      end
  end.

(** [re.compile] on the syntax above; [None] on anything else. *)
Definition parse (pattern : string) : option regex :=
  match parse_alt (4 * String.length pattern + 4) pattern 0 with
  | Some (r, EmptyString, _) => Some r
  | _ => None
  end.

Definition compile (pattern : string) : regex := default Fail (parse pattern).

(** *** Searching and replacing *)

(** A match: where it starts and the state at its end. *)
Record found := Found { start : nat; stop : state }.

Fixpoint search_from (fl : flags) (r : regex) (before : option ascii)
    (i : nat) (s : string) : option found :=
  match run fl r (State before i s []) Some with
  | Some e => Some (Found i e)
  | None =>
      match s with
      | EmptyString => None
      | String c t => search_from fl r (Some c) (S i) t
      end
  end.

(** [re.search(pattern, string, flags)]. *)
Definition search (pattern string_ : string) (fl : flags) : option found :=
  search_from fl (compile pattern) None 0 string_.

(** [re.search(...)] as a truth value. *)
Definition matches (pattern string_ : string) (fl : flags) : bool :=
  bool_decide (is_Some (search pattern string_ fl)).

(** [m.group(i)] for a group that took part in the match, on the string
    that was searched. *)
Definition group (m : found) (i : nat) (string_ : string) : string :=
  match List.find (fun g => Nat.eqb (fst g) i) (groups (stop m)) with
  | Some (_, (a, b)) => take (b - a) (drop a string_)
  | None => EmptyString
  end.

(** The matches [re.sub] and [re.findall] walk through, left to right: at
    each index either a match starts there, and the walk goes on where it
    ends (one character further after an empty match), or the character is
    passed over. *)
Fixpoint sub_walk (fuel : nat) (fl : flags) (r : regex) (repl : string)
    (before : option ascii) (i : nat) (s : string) : string :=
  match fuel with
  | O => s
  | S fuel' =>
      match run fl r (State before i s []) Some with
      | Some e =>
          if Nat.ltb i (pos e)
          then repl +:+ sub_walk fuel' fl r repl (prev e) (pos e) (rest e)
          else match s with
               | EmptyString => repl
               | String c t =>
                   repl +:+ String c (sub_walk fuel' fl r repl (Some c) (S i) t)
               end
      | None =>
          match s with
          | EmptyString => EmptyString
          | String c t => String c (sub_walk fuel' fl r repl (Some c) (S i) t)
          end
      end
  end.

(** [re.sub(pattern, repl, string, flags=...)] for a replacement without
    backslashes. *)
Definition sub (pattern repl string_ : string) (fl : flags) : string :=
  sub_walk (S (String.length string_)) fl (compile pattern) repl None 0 string_.

Fixpoint count_walk (fuel : nat) (fl : flags) (r : regex)
    (before : option ascii) (i : nat) (s : string) : nat :=
  match fuel with
  | O => O
  | S fuel' =>
      match run fl r (State before i s []) Some with
      | Some e =>
          if Nat.ltb i (pos e)
          then S (count_walk fuel' fl r (prev e) (pos e) (rest e))
          else match s with
               | EmptyString => 1%nat
               | String c t => S (count_walk fuel' fl r (Some c) (S i) t)
               end
      | None =>
          match s with
          | EmptyString => O
          | String c t => count_walk fuel' fl r (Some c) (S i) t
          end
      end
  end.

(** [len(re.findall(pattern, string))]. *)
Definition findall_len (pattern string_ : string) : Z :=
  Z.of_nat (count_walk (S (String.length string_)) NOFLAG (compile pattern)
                       None 0 string_).

End Re.

(** ** The world outside the interpreter *)

(** External calls, recorded in the order they are made. *)
Inductive call :=
| Download (url : string)              (* Article.download() *)
| Parse (url html : string)            (* Article.parse() *)
| TempFile (suffix : string)           (* tempfile.NamedTemporaryFile *)
| Wget (cmd : list string)             (* subprocess.run of wget *)
| HttpGet (url : string) (timeout : Z) (* requests.Session.get *)
| Sleep (lo hi : Z)                    (* time.sleep(random.uniform(lo, hi)) *)
| WriteFile (path : string)
| Unlink (path : string)               (* os.unlink *)
| MakeDirs (path : string)             (* os.makedirs *)
| Rasterize (cmd : list string).       (* subprocess.run of wkhtmltopdf *)

Record world := World {
  fs : gmap string string;             (* path to content *)
  environ : gmap string string;        (* os.environ *)
  calls : list call;
  logs : list (string * string)        (* level, message *)
}.

(** A computation in a world that returns or raises. *)
Definition M (A : Type) : Type := world -> result A * world.

Definition ret {A} (a : A) : M A := fun w => (Ok a, w).

Definition bind {A B} (m : M A) (k : A -> M B) : M B :=
  fun w => match m w with
           | (Ok a, w') => k a w'
           | (Raise e, w') => (Raise e, w')
           end.

Definition raise {A} (e : exn) : M A := fun w => (Raise e, w).

(** A pure computation that may raise, run in the world. *)
Definition lift {A} (r : result A) : M A := fun w => (r, w).

(** [try: body except Exception as e: handler e]. *)
Definition try_except {A} (body : M A) (handler : exn -> M A) : M A :=
  fun w => match body w with
           | (Ok a, w') => (Ok a, w')
           | (Raise e, w') => handler e w'
           end.

#[global] Instance M_ret : MRet M := @ret.
#[global] Instance M_bind : MBind M := fun A B k m => bind m k.

Definition get_world : M world := fun w => (Ok w, w).

Definition record (c : call) : M unit :=
  fun w => (Ok tt, World (fs w) (environ w) (calls w ++ [c]) (logs w)).

(** [self.log(message, level)]: to the helper's logger when there is one,
    printed otherwise; either way nothing comes back. *)
Definition log_at (level message : string) : M unit :=
  fun w => (Ok tt, World (fs w) (environ w) (calls w) (logs w ++ [(level, message)])).

Definition log (message : string) : M unit := log_at "info" message.

(** [helper.log_error(traceback.format_exc())] or [traceback.print_exc()]. *)
Definition log_traceback (e : exn) : M unit := log_at "traceback" (exn_str e).

Definition set_fs (f : gmap string string -> gmap string string) : M unit :=
  fun w => (Ok tt, World (f (fs w)) (environ w) (calls w) (logs w)).

Definition set_environ (k v : string) : M unit :=
  fun w => (Ok tt, World (fs w) (<[k := v]> (environ w)) (calls w) (logs w)).

(** newspaper's [Article] after [parse()]. [art_publish_date] is [None] when
    the article has no date and otherwise the outcome of
    [publish_date.strftime('%Y-%m-%d')]. *)
Record article := Article {
  art_html : string;
  art_title : string;
  art_text : string;
  art_authors : list string;
  art_publish_date : option (result string);
  art_top_image : string;
  art_images : list string;
  art_keywords : list string
}.

Definition with_html (a : article) (h : string) : article :=
  Article h (art_title a) (art_text a) (art_authors a) (art_publish_date a)
          (art_top_image a) (art_images a) (art_keywords a).

(** A [requests.Response]. *)
Record response := Response { status_code : Z; resp_text : string }.

(** A finished child process. *)
Record completed := Completed {
  returncode : Z;
  proc_stdout : string;
  proc_stderr : string
}.

(** An lxml element tree. *)
Inductive node :=
| Elem (tag : string) (attrs : list (string * string)) (children : list node)
| Text (s : string).

(** The external collaborators.  Each oracle sees the world of the call. *)
Record env := Env {
  (** [article.download()]: [article.html] afterwards. *)
  article_download : string -> world -> result string;
  (** [article.parse()] of an article with the given url and html. *)
  article_parse : string -> string -> world -> result article;
  (** The name of a new [NamedTemporaryFile(delete=False, suffix=...)]. *)
  temp_name : string -> world -> result string;
  (** The wget command: the process and what it left in the file it was told
      to write ([None]: it left no file). *)
  wget_run : list string -> world -> result (completed * option string);
  (** Reading a file as text with [errors='replace']. *)
  decode_replace : string -> string;
  (** [session.get(url, timeout=...)]. *)
  http_get : string -> Z -> world -> result response;
  (** [urllib.parse.urljoin]. *)
  urljoin : string -> string -> result string;
  (** [lxml.html.document_fromstring] and [lxml.html.tostring]. *)
  document_fromstring : string -> result node;
  tostring : node -> string;
  (** [_process_wordpress_html], the templated-blog rebuild (DOM surgery
      through lxml, not the subject of a property here). *)
  process_wordpress_html : string -> string -> world -> result string;
  (** Failures of the operating system, [None] when the call goes through. *)
  write_error : string -> world -> option exn;
  unlink_error : string -> world -> option exn;
  makedirs_error : string -> world -> option exn;
  (** wkhtmltopdf: the process (or the exception [subprocess.run] raises, a
      [TimeoutExpired] after the timeout) and the file system it leaves. *)
  rasterizer_run : list string -> Z -> world
                   -> result completed * gmap string string
}.

(** The state of an [HTMLProcessor]: [debug_mode] is [None] when the instance
    has no such attribute. *)
Record processor := Processor {
  user_agent : string;
  debug_mode : option bool
}.

Abbreviation dict := (gmap string value).

(** [result.get(key)]. *)
Definition dict_get (d : dict) (key : string) : value :=
  default VNone (d !! key).

Definition MIN_TEXT_LENGTH : Z := 100.

(** The dictionary every technique returns on failure. *)
Definition failure (error : string) (text : value) : dict :=
  <["error" := VStr error]> (<["text" := text]> ∅).

(** ** The Article Extractor *)

Section Extractor.

Variable E : env.
Variable self : processor.

(** An oracle call: recorded, then answered in the world it was made in. *)
Definition ask {A} (c : call) (oracle : world -> result A) : M A :=
  record c ;; w ← get_world; lift (oracle w).

(** [_is_valid_result]. [.strip()] of a list raises. *)
Definition _is_valid_result (result : dict) : Py.result bool :=
  if decide (result = ∅) then Ok false
  else match result !! "text" with
       | None | Some VNone => Ok false
       | Some (VStr text) =>
           if nonempty text then Ok (MIN_TEXT_LENGTH <? len (strip text))
           else Ok false
       | Some (VList l) =>
           if truthy (VList l)
           then Raise (Exn AttributeError "'list' object has no attribute 'strip'")
           else Ok false
       end.

(** [_build_article_result]. *)
Definition _build_article_result (a : article) (html_content : option string)
  : dict :=
  let images := art_images a in
  let publish_date :=
    match art_publish_date a with
    | Some (Ok d) => VStr d
    | Some (Raise _) => VNone
    | None => VNone
    end in
  let html := match html_content with Some h => h | None => art_html a end in
  let summary :=
    if (nonempty (art_text a) && (200 <? len (art_text a)))%bool
    then slice_to (art_text a) 200 +:+ "..."
    else art_text a in
  <["title" := VStr (art_title a)]> (
  <["text" := VStr (art_text a)]> (
  <["html" := VStr html]> (
  <["authors" := VList (art_authors a)]> (
  <["publish_date" := publish_date]> (
  <["top_image" := VStr (art_top_image a)]> (
  <["images" := VList images]> (
  <["keywords" := VList (art_keywords a)]> (
  <["summary" := VStr summary]> (
  <["error" := VNone]> ∅))))))))).

(** The text of an article is too short for the standard technique. *)
Definition text_below_minimum (text : string) : bool :=
  (negb (nonempty text) || (len (strip text) <? MIN_TEXT_LENGTH))%bool.

(** The text of an article is long enough for the other two techniques. *)
Definition text_above_minimum (text : string) : bool :=
  (nonempty text && (MIN_TEXT_LENGTH <? len (strip text)))%bool.

Definition pretty_nat_len (s : string) : string := pretty (len s).

(** [_extract_standard]. *)
Definition _extract_standard (url : string) : M dict :=
  try_except
    (log ("[STANDARD] Using User-Agent: " +:+ user_agent self) ;;
     try_except
       (log "[STANDARD] Downloading article" ;;
        html ← ask (Download url) (article_download E url);
        if (negb (nonempty html) || (len html <? 100))%bool then
          log "[STANDARD] Download failed or HTML too small" ;;
          mret (failure "Failed to download HTML content" VNone)
        else
          log ("[STANDARD] Download successful, HTML size: "
               +:+ pretty_nat_len html +:+ " bytes") ;;
          log "[STANDARD] Parsing article" ;;
          parsed ← ask (Parse url html) (article_parse E url html);
          let article := with_html parsed html in
          if text_below_minimum (art_text article) then
            log "[STANDARD] Parsing successful but text content too small" ;;
            mret (failure "Insufficient text content" (VStr (art_text article)))
          else
            log ("[STANDARD] Parsing successful, text length: "
                 +:+ pretty_nat_len (art_text article) +:+ " chars") ;;
            log ("[STANDARD] Title: " +:+ art_title article) ;;
            log ("[STANDARD] Images found: "
                 +:+ pretty (Z.of_nat (length (art_images article)))) ;;
            (if nonempty (art_top_image article)
             then log ("[STANDARD] Top image: " +:+ art_top_image article)
             else mret tt) ;;
            mret (_build_article_result article None))
       (fun e =>
          match exn_class_of e with
          | ArticleException =>
              log ("[STANDARD] Newspaper exception: " +:+ exn_str e) ;;
              mret (failure (exn_str e) VNone)
          | _ =>
              log ("[STANDARD] Unexpected error: " +:+ exn_str e) ;;
              mret (failure (exn_str e) VNone)
          end))
    (fun e =>
       log_at "error" ("[STANDARD] Error in standard extraction: " +:+ exn_str e) ;;
       log_traceback e ;;
       mret (failure (exn_str e) VNone)).

(** [os.unlink]. *)
Definition os_unlink (path : string) : M unit :=
  record (Unlink path) ;;
  w ← get_world;
  match unlink_error E path w with
  | Some e => raise e
  | None =>
      if decide (is_Some (fs w !! path)) then set_fs (delete path)
      else raise (Exn OSError "No such file or directory")
  end.

(** [os.path.exists]. *)
Definition exists_file (path : string) (w : world) : bool :=
  bool_decide (is_Some (fs w !! path)).

(** [_cleanup_temp_file]; the path is [None] before it was assigned. *)
Definition _cleanup_temp_file (file_path : option string) : M unit :=
  match file_path with
  | None => mret tt
  | Some path =>
      w ← get_world;
      if (nonempty path && exists_file path w)%bool then
        try_except (os_unlink path)
          (fun e => log_at "warning"
                      ("Failed to delete temp file " +:+ path +:+ ": " +:+ exn_str e))
      else mret tt
  end.

(** A [try] block whose first part assigns a local variable that the
    [except] clause reads: the handler gets [None] when the exception came
    before the assignment. *)
Definition try_except_var {V A} (assign : M V) (rest : V -> M A)
    (handler : option V -> exn -> M A) : M A :=
  fun w => match assign w with
           | (Raise e, w') => handler None e w'
           | (Ok v, w') =>
               match rest v w' with
               | (Ok a, w'') => (Ok a, w'')
               | (Raise e, w'') => handler (Some v) e w''
               end
           end.

(** [with tempfile.NamedTemporaryFile(delete=False, suffix=...)]: a new,
    empty file. *)
Definition new_temp_file (suffix : string) : M string :=
  path ← ask (TempFile suffix) (temp_name E suffix);
  set_fs (<[path := EmptyString]>) ;;
  mret path.

Definition WGET_COMMAND : string := "wget".
Definition WGET_TIMEOUT : Z := 30.
Definition WGET_TRIES : Z := 2.

(** [os.path.getsize]. *)
Definition getsize (path : string) : M Z :=
  w ← get_world;
  match fs w !! path with
  | Some content => mret (len content)
  | None => raise (Exn OSError "No such file or directory")
  end.

(** [open(path, 'r', encoding='utf-8', errors='replace').read()]. *)
Definition read_text (path : string) : M string :=
  w ← get_world;
  match fs w !! path with
  | Some content => mret (decode_replace E content)
  | None => raise (Exn OSError "No such file or directory")
  end.

(** [_extract_direct]. *)
Definition _extract_direct (url : string) : M dict :=
  try_except_var
    (log ("[DIRECT] Attempting wget direct extraction for " +:+ url) ;;
     new_temp_file ".html")
    (fun temp_path =>
       log ("[DIRECT] Using temporary file: " +:+ temp_path) ;;
       let wget_cmd :=
         [ WGET_COMMAND;
           "--user-agent=" +:+ user_agent self;
           "--timeout=" +:+ pretty WGET_TIMEOUT;
           "--tries=" +:+ pretty WGET_TRIES;
           "--quiet";
           "-O"; temp_path;
           url ] in
       log "[DIRECT] Executing wget command" ;;
       ran ← ask (Wget wget_cmd) (wget_run E wget_cmd);
       let process := fst ran in
       set_fs (match snd ran with
               | Some content => <[temp_path := content]>
               | None => delete temp_path
               end) ;;
       if negb (returncode process =? 0) then
         log ("[DIRECT] wget command failed: " +:+ proc_stderr process) ;;
         _cleanup_temp_file (Some temp_path) ;;
         mret (failure ("wget failed: " +:+ proc_stderr process) VNone)
       else
         file_size ← getsize temp_path;
         log ("[DIRECT] Retrieved HTML file size: " +:+ pretty file_size
              +:+ " bytes") ;;
         if file_size <? 100 then
           log "[DIRECT] HTML file too small" ;;
           _cleanup_temp_file (Some temp_path) ;;
           mret (failure "HTML file too small" VNone)
         else
           html_content ← read_text temp_path;
           parsed ← try_except
             (a ← ask (Parse EmptyString html_content)
                      (article_parse E EmptyString html_content);
              mret (inl (with_html a html_content)))
             (fun parse_error =>
                log ("[DIRECT] Parse error: " +:+ exn_str parse_error) ;;
                _cleanup_temp_file (Some temp_path) ;;
                mret (inr (failure ("Parse error: " +:+ exn_str parse_error)
                                   VNone)));
           match parsed with
           | inr failed => mret failed
           | inl article =>
               _cleanup_temp_file (Some temp_path) ;;
               (if match art_images article with [] => false | _ => true end
                then log ("[DIRECT] Extracted "
                          +:+ pretty (Z.of_nat (length (art_images article)))
                          +:+ " images")
                else mret tt) ;;
               (if nonempty (art_top_image article)
                then log ("[DIRECT] Found top image: " +:+ art_top_image article)
                else mret tt) ;;
               if text_above_minimum (art_text article) then
                 log ("[DIRECT] Successfully extracted "
                      +:+ pretty_nat_len (art_text article) +:+ " chars") ;;
                 mret (_build_article_result article (Some html_content))
               else
                 log ("[DIRECT] Parsing succeeded but insufficient text: "
                      +:+ pretty_nat_len (art_text article) +:+ " chars") ;;
                 mret (failure "Insufficient text content"
                               (VStr (art_text article)))
           end)
    (fun temp_path e =>
       log_at "error" ("[DIRECT] Error: " +:+ exn_str e) ;;
       log_traceback e ;;
       _cleanup_temp_file temp_path ;;
       mret (failure (exn_str e) VNone)).

(** The preliminary visit of the site's homepage in [_extract_advanced]:
    whatever it raises is logged and dropped. *)
Definition visit_homepage (domain : string) : M unit :=
  try_except
    (log ("[ADVANCED] Step 1: Visiting site homepage: " +:+ domain) ;;
     top_response ← ask (HttpGet domain 30) (http_get E domain 30);
     log ("[ADVANCED] Homepage access status: "
          +:+ pretty (status_code top_response)) ;;
     log "[ADVANCED] Waiting to emulate natural browsing" ;;
     record (Sleep 2 4) ;;
     log "[ADVANCED] Homepage visit complete")
    (fun e =>
       log ("[ADVANCED] Homepage access error (continuing): " +:+ exn_str e)).

(** The request for the article in [_extract_advanced] and what follows. *)
Definition visit_target (url : string) : M dict :=
  log ("[ADVANCED] Step 2: Visiting target article: " +:+ url) ;;
  response ← ask (HttpGet url 45) (http_get E url 45);
  log ("[ADVANCED] Article request status code: "
       +:+ pretty (status_code response)) ;;
  if negb (status_code response =? 200) then
    log ("[ADVANCED] Failed to access article, status code: "
         +:+ pretty (status_code response)) ;;
    mret (failure ("Failed with status code " +:+ pretty (status_code response))
                  VNone)
  else
    record (Sleep 1 2) ;;
    log ("[ADVANCED] Retrieved HTML size: " +:+ pretty_nat_len (resp_text response)
         +:+ " bytes") ;;
    log "[ADVANCED] Parsing content with newspaper" ;;
    parsed ← try_except
      (a ← ask (Parse url (resp_text response))
               (article_parse E url (resp_text response));
       mret (inl (with_html a (resp_text response))))
      (fun parse_error =>
         log ("[ADVANCED] Error parsing article: " +:+ exn_str parse_error) ;;
         mret (inr (failure ("Failed to parse article: " +:+ exn_str parse_error)
                            VNone)));
    match parsed with
    | inr failed => mret failed
    | inl article =>
        (if match art_images article with [] => false | _ => true end
         then log ("[ADVANCED] Extracted "
                   +:+ pretty (Z.of_nat (length (art_images article)))
                   +:+ " images")
         else mret tt) ;;
        (if nonempty (art_top_image article)
         then log ("[ADVANCED] Found top image: " +:+ art_top_image article)
         else mret tt) ;;
        if text_above_minimum (art_text article) then
          log ("[ADVANCED] Successfully extracted article: "
               +:+ pretty_nat_len (art_text article) +:+ " chars") ;;
          log ("[ADVANCED] Title: " +:+ art_title article) ;;
          mret (_build_article_result article None)
        else
          log "[ADVANCED] Article parsing succeeded but no meaningful text was extracted" ;;
          mret (failure "No meaningful text in the article"
                        (if nonempty (art_text article)
                         then VStr (art_text article) else VNone))
    end.

(** [_extract_advanced]. *)
Definition _extract_advanced (url : string) : M dict :=
  try_except
    (parsed_url ← lift (Url.urlparse url);
     let domain := Url.scheme parsed_url +:+ "://" +:+ Url.netloc parsed_url in
     log "[ADVANCED] Using advanced browser emulation" ;;
     log ("[ADVANCED] User-Agent: " +:+ user_agent self) ;;
     visit_homepage domain ;;
     visit_target url)
    (fun e =>
       log_at "error" ("[ADVANCED] Error in advanced extraction: " +:+ exn_str e) ;;
       log_traceback e ;;
       mret (failure (exn_str e) VNone)).

(** The ladder of [extract_article]. *)
Definition extraction_methods : list (string * (string -> M dict)) :=
  [ ("standard", _extract_standard);
    ("direct_wget", _extract_direct);
    ("advanced", _extract_advanced) ].

(** The loop of [extract_article] over the methods still to be tried. *)
Fixpoint try_methods (methods : list (string * (string -> M dict)))
    (url : string) : M (option dict) :=
  match methods with
  | [] =>
      log "[EXTRACTION] FAILURE: All extraction methods failed" ;;
      log ("[EXTRACTION] COMPLETE: No successful extraction for " +:+ url) ;;
      mret None
  | (method_name, extract_func) :: rest =>
      log ("[EXTRACTION] ATTEMPT: Using " +:+ method_name +:+ " method") ;;
      result ← extract_func url;
      valid ← lift (_is_valid_result result);
      if valid : bool then
        log ("[EXTRACTION] SUCCESS: " +:+ method_name +:+ " method extracted "
             +:+ match dict_get result "text" with
                 | VStr text => pretty_nat_len text
                 | _ => EmptyString
                 end +:+ " chars") ;;
        log ("[EXTRACTION] COMPLETE: Used " +:+ method_name +:+ " method for "
             +:+ url) ;;
        mret (Some (<["extraction_method" := VStr method_name]> result))
      else
        log ("[EXTRACTION] " +:+ method_name
             +:+ " method failed, trying next method") ;;
        try_methods rest url
  end.

(** [extract_article]. *)
Definition extract_article (url : string) : M (option dict) :=
  try_except
    (log ("====== STARTING EXTRACTION FOR URL: " +:+ url +:+ " ======") ;;
     try_methods extraction_methods url)
    (fun e =>
       log_at "error" ("[EXTRACTION] CRITICAL ERROR: " +:+ exn_str e) ;;
       log_traceback e ;;
       mret None).

End Extractor.

(** ** The Strategy Classifier *)

Section Classifier.

Variable self : processor.

(** [if hasattr(self, 'debug_mode') and self.debug_mode: self.log(message)]. *)
Definition debug_log (message : string) : M unit :=
  match debug_mode self with
  | Some true => log message
  | _ => mret tt
  end.

(** Detection method 3: the class names of WordPress themes. *)
Definition wp_classes : list string :=
  [ "wp-block-"; "entry-content"; "post-content"; "the-content";
    "widget-area"; "site-header"; "site-footer"; "wp-caption" ].

(** Detection method 7. *)
Definition article_patterns : list string :=
  [ "<article[^>]*class=[" +:+ dq +:+ "\'][^" +:+ dq +:+ "\']*(?:post|entry|blog-post)";
    "<h\d[^>]*class=[" +:+ dq +:+ "\'][^" +:+ dq +:+ "\']*(?:post-title|entry-title)";
    "<div[^>]*class=[" +:+ dq +:+ "\'][^" +:+ dq +:+ "\']*(?:post-meta|entry-meta)";
    "<div[^>]*id=[" +:+ dq +:+ "\'](?:comments|respond)";
    "<div[^>]*class=[" +:+ dq +:+ "\'][^" +:+ dq +:+ "\']*(?:share-buttons|social-share)";
    "<link[^>]*rel=[" +:+ dq +:+ "\']alternate[" +:+ dq +:+ "\'][^>]*type=["
      +:+ dq +:+ "\']application/(?:rss\+xml|atom\+xml)" ].

(** Detection method 8. *)
Definition js_patterns : list string :=
  [ "wp-embed\.min\.js";
    "wp-emoji-release\.min\.js";
    "jquery/jquery\.js\?ver=";
    "wp-includes/js/";
    "_wpnonce" ].

(** Detection method 10. *)
Definition enhanced_article_patterns : list string :=
  [ "<div[^>]*(?:author|byline)[^>]*>.*?<\/div>";
    "<div[^>]*(?:related|more-stories)[^>]*>.*?<\/div>";
    "<div[^>]*(?:meta|article-info)[^>]*>.*?<\/div>" ].

(** Detection method 11. *)
Definition header_footer_patterns : list string :=
  [ "<header[^>]*class=[" +:+ dq +:+ "\'][^" +:+ dq +:+ "\']*(?:site-header|main-header)";
    "<footer[^>]*class=[" +:+ dq +:+ "\'][^" +:+ dq +:+ "\']*(?:site-footer|main-footer)";
    "<div[^>]*class=[" +:+ dq +:+ "\'][^" +:+ dq +:+ "\']*(?:copyright|site-info)" ].

(** The first pattern of a list found in a string: the loop
    [for pattern in patterns: if re.search(pattern, string, flags): ...]. *)
Definition first_found (patterns : list string) (string_ : string)
    (fl : Re.flags) : option string :=
  List.find (fun pattern => Re.matches pattern string_ fl) patterns.

(** The pattern of detection method 3 for one class name. *)
Definition class_pattern (wp_class : string) : string :=
  "class=[" +:+ dq +:+ "'][^" +:+ dq +:+ "']*" +:+ wp_class.

(** [_is_wordpress_site]. *)
Definition _is_wordpress_site (html_content url : string) : M bool :=
  debug_log ("Checking if site is WordPress: " +:+ url) ;;
  if Re.matches ("<meta[^>]*name=[" +:+ dq +:+ "\']generator[" +:+ dq
                 +:+ "\'][^>]*content=[" +:+ dq +:+ "\']WordPress")
                html_content Re.IGNORECASE then
    log "WordPress site detected via meta generator tag" ;; mret true
  else if Re.matches "wp-(?:content|includes)" html_content Re.NOFLAG then
    log "WordPress site detected via resource patterns" ;; mret true
  else
  match List.find (fun wp_class =>
                     Re.matches (class_pattern wp_class) html_content Re.NOFLAG)
                  wp_classes with
  | Some wp_class =>
      log ("WordPress site detected via class '" +:+ wp_class +:+ "'") ;;
      mret true
  | None =>
  if (nonempty url
      && (contains "/wp-content/" url || contains "/wp-includes/" url))%bool then
    log "WordPress site detected via URL pattern" ;; mret true
  else if Re.matches "blogger\.googleusercontent\.com/img/" html_content
                     Re.NOFLAG then
    log "WordPress site detected via Blogger image pattern" ;; mret true
  else if (nonempty url
           && Re.matches "/(20\d{2})/(0[1-9]|1[0-2])/[\w-]+\.html" url
                         Re.NOFLAG)%bool then
    log "WordPress site detected via permalink structure" ;; mret true
  else
  match first_found article_patterns html_content Re.IGNORECASE with
  | Some _ =>
      log "WordPress site detected via extended article pattern" ;; mret true
  | None =>
  match first_found js_patterns html_content Re.NOFLAG with
  | Some _ =>
      log "WordPress site detected via JavaScript pattern" ;; mret true
  | None =>
  if Re.matches "\[[\w\s]+\]\(https?://[^\)]+\)" html_content Re.NOFLAG then
    log "WordPress site detected via Markdown link syntax" ;; mret true
  else
  match first_found enhanced_article_patterns html_content
                    Re.DOTALL_IGNORECASE with
  | Some _ =>
      log "WordPress site detected via enhanced article structure pattern" ;;
      mret true
  | None =>
  match first_found header_footer_patterns html_content Re.IGNORECASE with
  | Some _ =>
      log "WordPress site detected via header/footer pattern" ;; mret true
  | None =>
      debug_log ("No WordPress patterns detected for: " +:+ url) ;;
      mret false
  end end end end end.

(** The signals of a complex layout. *)
Definition has_complex_layout (html_content : string) : bool :=
  (Re.matches "display\s*:\s*grid" html_content Re.NOFLAG
   || Re.matches "display\s*:\s*flex" html_content Re.NOFLAG
   || (100 <? Re.findall_len "<div" html_content)
   || (15 <? Re.findall_len "<script" html_content))%bool.

(** The tag families among div, section, article that open more than 50
    times. *)
Definition nested_level (html_content : string) : Z :=
  fold_left
    (fun nested tag =>
       if 50 <? Re.findall_len ("<" +:+ tag +:+ "[^>]*>") html_content
       then nested + 1 else nested)
    ["div"; "section"; "article"] 0.

Definition problematic_domains : list string :=
  [ "therecord.media"; "theverge.com"; "wired.com"; "securityboulevard.com" ].

(** The deny-list check of the url's network location; [urlparse] may
    raise. *)
Definition domain_match (url : string) : result bool :=
  if nonempty url then
    match Url.urlparse url with
    | Ok parsed_url =>
        let domain := lower (Url.netloc parsed_url) in
        Ok (existsb (fun prob_domain => contains prob_domain domain)
                    problematic_domains)
    | Raise e => Raise e
    end
  else Ok false.

(** [_determine_best_strategy]. *)
Definition _determine_best_strategy (html_content url : string) : M string :=
  wordpress ← _is_wordpress_site html_content url;
  if wordpress : bool then
    log "WordPress site detected - using extract strategy" ;;
    mret "extract"
  else
    let complex := has_complex_layout html_content in
    let nested := nested_level html_content in
    matched ← lift (domain_match url);
    if ((complex && (2 <=? nested)) || matched)%bool
    then mret "extract"
    else mret "minimal".

End Classifier.

(** The verdict of the templated-blog detection as the disjunction of its
    checks, in the order the source runs them. *)
Definition wordpress_signals (html_content url : string) : list bool :=
  [ Re.matches ("<meta[^>]*name=[" +:+ dq +:+ "\']generator[" +:+ dq
                +:+ "\'][^>]*content=[" +:+ dq +:+ "\']WordPress")
               html_content Re.IGNORECASE;
    Re.matches "wp-(?:content|includes)" html_content Re.NOFLAG;
    existsb (fun wp_class =>
               Re.matches (class_pattern wp_class) html_content Re.NOFLAG)
            wp_classes;
    (nonempty url
     && (contains "/wp-content/" url || contains "/wp-includes/" url))%bool;
    Re.matches "blogger\.googleusercontent\.com/img/" html_content Re.NOFLAG;
    (nonempty url
     && Re.matches "/(20\d{2})/(0[1-9]|1[0-2])/[\w-]+\.html" url Re.NOFLAG)%bool;
    existsb (fun p => Re.matches p html_content Re.IGNORECASE) article_patterns;
    existsb (fun p => Re.matches p html_content Re.NOFLAG) js_patterns;
    Re.matches "\[[\w\s]+\]\(https?://[^\)]+\)" html_content Re.NOFLAG;
    existsb (fun p => Re.matches p html_content Re.DOTALL_IGNORECASE)
            enhanced_article_patterns;
    existsb (fun p => Re.matches p html_content Re.IGNORECASE)
            header_footer_patterns ].

Definition is_templated_blog (html_content url : string) : bool :=
  existsb (fun signal => signal) (wordpress_signals html_content url).

(** ** Element trees

    What the image pass does with lxml: elements are addressed by their path
    from the root, so that the one tree every selected element belongs to is
    the one that is updated. *)

Module Dom.

Definition path := list nat.

(** [element.get(name)]. *)
Fixpoint attr (name : string) (attrs : list (string * string)) : option string :=
  match attrs with
  | [] => None
  | (k, v) :: rest => if String.eqb k name then Some v else attr name rest
  end.

(** [element.get(name, '')]. *)
Definition attr_or_empty (name : string) (attrs : list (string * string))
  : string :=
  default EmptyString (attr name attrs).

(** [element.set(name, value)]. *)
Fixpoint set_attr (name value : string) (attrs : list (string * string))
  : list (string * string) :=
  match attrs with
  | [] => [(name, value)]
  | (k, v) :: rest =>
      if String.eqb k name then (k, value) :: rest
      else (k, v) :: set_attr name value rest
  end.

Fixpoint nth_node (i : nat) (l : list node) : option node :=
  match l, i with
  | [], _ => None
  | n :: _, O => Some n
  | _ :: rest, S i' => nth_node i' rest
  end.

Fixpoint get (n : node) (p : path) : option node :=
  match p with
  | [] => Some n
  | i :: p' =>
      match n with
      | Elem _ _ children =>
          match nth_node i children with
          | Some c => get c p'
          | None => None
          end
      | Text _ => None
      end
  end.

(** The tree with the element at a path replaced by its image under [f]. *)
Fixpoint update (f : node -> node) (p : path) (n : node) : node :=
  match p with
  | [] => f n
  | i :: p' =>
      match n with
      | Elem tag attrs children =>
          Elem tag attrs
               ((fix go (i : nat) (cs : list node) : list node :=
                   match cs, i with
                   | [], _ => []
                   | c :: rest, O => update f p' c :: rest
                   | c :: rest, S i' => c :: go i' rest
                   end) i children)
      | Text s => Text s
      end
  end.

(** The whitespace of XPath's [normalize-space]. *)
Definition xml_space (c : ascii) : bool :=
  (Nat.eqb (code c) 32 || Nat.eqb (code c) 9 || Nat.eqb (code c) 10
   || Nat.eqb (code c) 13)%bool.

(** The words of a class attribute. *)
Fixpoint words_from (cur : string) (s : string) : list string :=
  match s with
  | EmptyString => if nonempty cur then [cur] else []
  | String c t =>
      if xml_space c
      then (if nonempty cur then [cur] else []) ++ words_from EmptyString t
      else words_from (cur +:+ String c EmptyString) t
  end.

Definition class_words (attrs : list (string * string)) : list string :=
  match attr "class" attrs with
  | Some v => words_from EmptyString v
  | None => []
  end.

(** The selectors the pass uses: a tag name, a class, an attribute with a
    value. *)
Inductive selector :=
| ByTag (name : string)
| ByClass (name : string)
| ByAttr (name value : string).

Definition selects (sel : selector) (n : node) : bool :=
  match n with
  | Text _ => false
  | Elem tag attrs _ =>
      match sel with
      | ByTag name => String.eqb tag name
      | ByClass name => existsb (String.eqb name) (class_words attrs)
      | ByAttr name value =>
          match attr name attrs with
          | Some v => String.eqb v value
          | None => false
          end
      end
  end.

(** [element.cssselect(selector)]: the element and its descendants that the
    selector selects, in document order, by their paths from the element. *)
Fixpoint cssselect (sel : selector) (n : node) : list path :=
  (if selects sel n then [[]] else [])
  ++ match n with
     | Text _ => []
     | Elem _ _ children =>
         (fix go (i : nat) (cs : list node) : list path :=
            match cs with
            | [] => []
            | c :: rest => map (cons i) (cssselect sel c) ++ go (S i) rest
            end) O children
     end.

End Dom.

(** ** The HTML Sanitizer/Rebuilder and the PDF Renderer *)

(** [_get_layout_repair_css]. *)
Definition _get_layout_repair_css : string :=
  "
        <style>
            /* 本文コンテンツの強制表示 */
            article, .article, main, .main, .content, .post, .entry, [itemprop=" +:+ dq +:+ "articleBody" +:+ dq +:+ "], .story {
                display: block !important;
                width: 100% !important;
                max-width: 100% !important;
                position: static !important;
                overflow: visible !important;
                padding: 10px 0 !important;
                margin: 0 auto !important;
                float: none !important;
            }
            
            /* コンテンツ画像の保持と最適化 */
            .content-image-preserve {
                display: block !important;
                max-width: 90% !important;
                height: auto !important;
                margin: 10px auto !important;
                page-break-inside: avoid !important;
            }
            
            /* 見出し最適化 */
            h1, h2, h3 {
                page-break-after: avoid !important;
                margin-top: 20px !important;
                margin-bottom: 10px !important;
            }
            
            /* テキスト最適化 */
            p {
                margin: 10px 0 !important;
                line-height: 1.5 !important;
            }
            
            /* 大きな画像のページ内表示 */
            img {
                page-break-inside: avoid !important;
            }
            
            /* フッタースタイル */
            .pdf-footer {
                text-align: center;
                font-size: 9pt;
                color: #666;
                margin-top: 20px;
                padding-top: 10px;
                border-top: 1px solid #ccc;
            }
        </style>
        ".

(** The stylesheet of [_prepare_html_for_better_layout]. *)
Definition pdf_css : string :=
  "
            <style>
                @page {
                    size: A4;
                    margin: 10mm 10mm 15mm 10mm;
                }
                
                /* リンクのスタイル保持 */
                a {
                    color: inherit;
                    text-decoration: inherit;
                }
                
                /* 画像の適切な拡大縮小 */
                img {
                    max-width: 100%;
                    height: auto;
                    page-break-inside: avoid;
                }
                
                /* 改ページコントロール */
                h1, h2, h3, h4, h5, h6 {
                    page-break-after: avoid;
                    page-break-inside: avoid;
                }
                
                /* テーブルレイアウト保持 */
                table {
                    border-collapse: collapse;
                    width: 100%;
                    page-break-inside: avoid;
                }
                
                /* フッタースタイル */
                .pdf-footer {
                    text-align: center;
                    font-size: 9pt;
                    color: #666;
                    margin-top: 20px;
                    padding-top: 10px;
                    border-top: 1px solid #ccc;
                }
            </style>
            ".

(** The stylesheet of [_build_clean_article_html]. *)
Definition article_css : string :=
  "
        <style>
            /* ページ設定 */
            @page {
                size: A4;
                margin: 10mm 10mm 15mm 10mm;
            }
            
            /* 基本設定 */
            body {
                font-family: Arial, Helvetica, sans-serif;
                font-size: 12pt;
                line-height: 1.5;
                color: #000;
                background-color: #fff;
                margin: 0;
                padding: 20px;
            }
            
            /* 記事コンテナ */
            .article-container {
                max-width: 100%;
                margin: 0 auto;
            }
            
            /* タイトル */
            .article-title {
                font-size: 24pt;
                font-weight: bold;
                margin-bottom: 20px;
                line-height: 1.2;
                color: #333;
            }
            
            /* メイン画像 */
            .main-image {
                max-width: 100%;
                height: auto;
                margin: 20px 0;
                display: block;
            }
            
            /* 記事本文 */
            .article-content {
                margin-top: 20px;
                font-size: 12pt;
                line-height: 1.6;
            }
            
            /* 段落 */
            .article-content p {
                margin: 12px 0;
            }
            
            /* 画像 */
            .article-content img {
                max-width: 100%;
                height: auto;
                margin: 15px 0;
                display: block;
            }
            
            /* フッター */
            .article-footer {
                margin-top: 30px;
                padding-top: 10px;
                border-top: 1px solid #ccc;
                font-size: 10pt;
                color: #666;
                text-align: center;
            }
        </style>
        ".

(** [_selective_layout_cleaning]. *)
Definition patterns_to_remove : list (string * string) :=
  [ ("<div[^>]*(?:ad|advertisement|banner|sponsor|promo)[^>]*>.*?</div>", EmptyString);
    ("<aside[^>]*>.*?</aside>", EmptyString);
    ("<div[^>]*(?:social|share|related|recommend)[^>]*>.*?</div>", EmptyString);
    ("<iframe[^>]*(?:ad|advertisement|banner)[^>]*>.*?</iframe>", EmptyString) ].

Definition layout_fixes : list (string * string) :=
  [ ("display\s*:\s*grid[^;]*;", "display: block;");
    ("display\s*:\s*flex[^;]*;", "display: block;");
    ("position\s*:\s*fixed[^;]*;", "position: static;");
    ("position\s*:\s*sticky[^;]*;", "position: static;") ].

Definition js_events : list string :=
  [ "onclick"; "onload"; "onscroll"; "onmouseover"; "onmouseout" ].

Definition _selective_layout_cleaning (html_content : string) : string :=
  let html_content :=
    fold_left (fun h pr => Re.sub (fst pr) (snd pr) h Re.DOTALL_IGNORECASE)
              patterns_to_remove html_content in
  let html_content :=
    fold_left (fun h pr => Re.sub (fst pr) (snd pr) h Re.NOFLAG)
              layout_fixes html_content in
  let html_content :=
    Re.sub "<script\b[^<]*(?:(?!<\/script>)<[^<]*)*<\/script>" EmptyString
           html_content Re.DOTALL in
  fold_left
    (fun h event =>
       Re.sub (" " +:+ event +:+ "=" +:+ dq +:+ "[^" +:+ dq +:+ "]*" +:+ dq)
              EmptyString h Re.NOFLAG)
    js_events html_content.

Definition problematic_scripts : list string :=
  [ "<script[^>]*google-analytics[^>]*>.*?</script>";
    "<script[^>]*gtm\.js[^>]*>.*?</script>";
    "<script[^>]*facebook[^>]*>.*?</script>";
    "<script[^>]*twitter[^>]*>.*?</script>";
    "<script[^>]*ads[^>]*>.*?</script>";
    "<script[^>]*analytics[^>]*>.*?</script>";
    "<script[^>]*tracker[^>]*>.*?</script>" ].

Definition viewport_meta : string :=
  "  <meta name=" +:+ dq +:+ "viewport" +:+ dq +:+ " content=" +:+ dq
  +:+ "width=device-width, initial-scale=1.0" +:+ dq +:+ ">" +:+ nl.

Definition charset_meta : string :=
  "  <meta charset=" +:+ dq +:+ "UTF-8" +:+ dq +:+ ">" +:+ nl.

Definition source_footer (url : string) : string :=
  "<div class=" +:+ dq +:+ "pdf-footer" +:+ dq +:+ ">Source: " +:+ url
  +:+ "</div>" +:+ nl.

(** [_prepare_html_for_better_layout].  Nothing in its body raises but
    [urlparse], which has an [except] of its own, so the outer [except] of
    the source is never entered. *)
Definition _prepare_html_for_better_layout (html_content url : string)
    (include_images : bool) : string :=
  if negb (nonempty html_content) then html_content else
  let has_html_tag := Re.matches "<html.*?>.*?</html>" html_content Re.DOTALL in
  let has_head_tag :=
    (contains "<head>" html_content && contains "</head>" html_content)%bool in
  let has_body_tag :=
    (contains "<body" html_content && contains "</body>" html_content)%bool in
  let base_url_tag :=
    if nonempty url then
      match Url.urlparse url with
      | Ok parsed_url =>
          "<base href=" +:+ dq +:+ Url.scheme parsed_url +:+ "://"
          +:+ Url.netloc parsed_url +:+ "/" +:+ dq +:+ ">"
      | Raise _ => EmptyString
      end
    else EmptyString in
  let html_content :=
    fold_left (fun h pattern => Re.sub pattern EmptyString h Re.DOTALL_IGNORECASE)
              problematic_scripts html_content in
  let html_content :=
    Re.sub "<iframe[^>]*(?:advertisement|ads|youtube|vimeo)[^>]*>.*?</iframe>"
           EmptyString html_content Re.DOTALL_IGNORECASE in
  if negb has_html_tag then
    let new_html := "<!DOCTYPE html>" +:+ nl +:+ "<html>" +:+ nl in
    let new_html :=
      if negb has_head_tag then
        new_html +:+ "<head>" +:+ nl +:+ charset_meta +:+ viewport_meta
        +:+ (if nonempty url
             then "  <title>Article from " +:+ url +:+ "</title>" +:+ nl
             else "  <title>Article</title>" +:+ nl)
        +:+ base_url_tag +:+ nl +:+ pdf_css +:+ nl +:+ "</head>" +:+ nl
      else
        match Re.search "<head>(.*?)</head>" html_content Re.DOTALL with
        | Some head_match =>
            let head_content := Re.group head_match 1 html_content in
            new_html +:+ "<head>" +:+ nl
            +:+ (if negb (contains "<meta charset" head_content)
                 then charset_meta else EmptyString)
            +:+ (if negb (contains ("<meta name=" +:+ dq +:+ "viewport" +:+ dq)
                                   head_content)
                 then viewport_meta else EmptyString)
            +:+ base_url_tag +:+ nl +:+ head_content +:+ nl +:+ pdf_css +:+ nl
            +:+ "</head>" +:+ nl
        | None => new_html
        end in
    let new_html :=
      if negb has_body_tag then
        new_html +:+ "<body>" +:+ nl +:+ html_content +:+ nl
        +:+ (if nonempty url then source_footer url else EmptyString)
        +:+ "</body>" +:+ nl
      else
        match Re.search "<body.*?>(.*?)</body>" html_content Re.DOTALL with
        | Some body_match =>
            let body_attrs :=
              match Re.search "<body([^>]*)>" html_content Re.NOFLAG with
              | Some body_attributes => Re.group body_attributes 1 html_content
              | None => EmptyString
              end in
            new_html +:+ "<body" +:+ body_attrs +:+ ">" +:+ nl
            +:+ Re.group body_match 1 html_content +:+ nl
            +:+ (if nonempty url then source_footer url else EmptyString)
            +:+ "</body>" +:+ nl
        | None => new_html
        end in
    new_html +:+ "</html>"
  else
    let html_content :=
      if has_head_tag then
        let html_content :=
          if (nonempty base_url_tag && negb (contains "<base" html_content))%bool
          then replace "</head>" (base_url_tag +:+ nl +:+ "</head>") html_content
          else html_content in
        replace "</head>" (pdf_css +:+ nl +:+ "</head>") html_content
      else html_content in
    if (has_body_tag && nonempty url)%bool
    then replace "</body>" (source_footer url +:+ "</body>") html_content
    else html_content.

(** [str(x)], as an f-string formats a value (the representation of a list
    is that of Python for strings without quotes or escapes). *)
Definition format_value (v : value) : string :=
  match v with
  | VNone => "None"
  | VStr s => s
  | VList l =>
      "[" +:+ fold_right (fun s acc =>
                            sq +:+ s +:+ sq
                            +:+ (if nonempty acc then ", " +:+ acc else acc))
                         EmptyString l +:+ "]"
  end.

(** What a [for] loop over a value goes through: the elements of a list, the
    characters of a string. *)
Definition iterate (v : value) : list string :=
  match v with
  | VList l => l
  | VStr s => map (fun c => String c EmptyString) (list_ascii_of_string s)
  | VNone => []
  end.

Section Renderer.

Variable E : env.
Variable self : processor.

(** The loop of [_build_clean_article_html] that puts up to five images into
    the body, each at an offset counted in characters. *)
Fixpoint place_images (url : string) (images used_images : list string)
    (image_count : Z) (content_html : string) : result string :=
  match images with
  | [] => Ok content_html
  | img_url :: rest =>
      if (negb (existsb (String.eqb img_url) used_images)
          && (image_count <? 5))%bool then
        match (if (nonempty url
                   && negb (startswith "http://" img_url
                            || startswith "https://" img_url))%bool
               then urljoin E url img_url else Ok img_url) with
        | Raise e => Raise e
        | Ok img_url =>
            let insert_pos :=
              Z.min (len content_html / 2 + image_count * (len content_html / 10))
                    (len content_html - 1) in
            let content_html :=
              slice_to content_html insert_pos
              +:+ "<img src=" +:+ dq +:+ img_url +:+ dq +:+ " alt=" +:+ dq +:+ dq
              +:+ " class=" +:+ dq +:+ "article-image" +:+ dq +:+ " />" +:+ nl
              +:+ slice_from content_html insert_pos in
            place_images url rest (img_url :: used_images) (image_count + 1)
                         content_html
        end
      else place_images url rest used_images image_count content_html
  end.

(** [_build_clean_article_html]; [text.split] raises on what is no string. *)
Definition _build_clean_article_html (title text top_image images : value)
    (url : string) (include_images : bool) : result string :=
  match text with
  | VStr text =>
      let paragraphs := split (nl +:+ nl) text in
      let content_html :=
        fold_left (fun content_html paragraph =>
                     if nonempty (strip paragraph)
                     then content_html +:+ "<p>" +:+ strip paragraph +:+ "</p>" +:+ nl
                     else content_html)
                  paragraphs EmptyString in
      match (if (include_images && truthy images)%bool
             then place_images url (iterate images)
                               (if truthy top_image
                                then [format_value top_image] else [])
                               0 content_html
             else Ok content_html) with
      | Raise e => Raise e
      | Ok content_html =>
          let ind := "        " in
          Ok ("<!DOCTYPE html>" +:+ nl
              +:+ ind +:+ "<html>" +:+ nl
              +:+ ind +:+ "<head>" +:+ nl
              +:+ ind +:+ "    <meta charset=" +:+ dq +:+ "UTF-8" +:+ dq +:+ ">" +:+ nl
              +:+ ind +:+ "    <meta name=" +:+ dq +:+ "viewport" +:+ dq
                      +:+ " content=" +:+ dq
                      +:+ "width=device-width, initial-scale=1.0" +:+ dq +:+ ">" +:+ nl
              +:+ ind +:+ "    <title>" +:+ format_value title +:+ "</title>" +:+ nl
              +:+ ind +:+ "    " +:+ article_css +:+ nl
              +:+ ind +:+ "</head>" +:+ nl
              +:+ ind +:+ "<body>" +:+ nl
              +:+ ind +:+ "    <div class=" +:+ dq +:+ "article-container" +:+ dq +:+ ">" +:+ nl
              +:+ ind +:+ "        <h1 class=" +:+ dq +:+ "article-title" +:+ dq +:+ ">"
                      +:+ format_value title +:+ "</h1>" +:+ nl
              +:+ ind +:+ "        " +:+ nl
              +:+ ind +:+ "        "
                      +:+ (if (truthy top_image && include_images)%bool
                           then "<img src=" +:+ dq +:+ format_value top_image +:+ dq
                                +:+ " alt=" +:+ dq +:+ format_value title +:+ dq
                                +:+ " class=" +:+ dq +:+ "main-image" +:+ dq +:+ " />"
                           else EmptyString) +:+ nl
              +:+ ind +:+ "        " +:+ nl
              +:+ ind +:+ "        <div class=" +:+ dq +:+ "article-content" +:+ dq +:+ ">" +:+ nl
              +:+ ind +:+ "            " +:+ content_html +:+ nl
              +:+ ind +:+ "        </div>" +:+ nl
              +:+ ind +:+ "        " +:+ nl
              +:+ ind +:+ "        <div class=" +:+ dq +:+ "article-footer" +:+ dq +:+ ">" +:+ nl
              +:+ ind +:+ "            Source: "
                      +:+ (if nonempty url then url else "Unknown source") +:+ nl
              +:+ ind +:+ "        </div>" +:+ nl
              +:+ ind +:+ "    </div>" +:+ nl
              +:+ ind +:+ "</body>" +:+ nl
              +:+ ind +:+ "</html>" +:+ nl
              +:+ ind)
      end
  | _ => Raise (Exn AttributeError "object has no attribute 'split'")
  end.

(** [_is_valid_processed_html].  The source compares the quotient of two
    integers with 0.05 in floating point; for every length a string can have
    that is the comparison of 20 times the count with the length. *)
Definition _is_valid_processed_html (html_content : string) : bool :=
  if 20 * Re.findall_len "[a-zA-Z0-9]" html_content
     <? Z.max (len html_content) 1 then false
  else
    let content_containers :=
      [ "<article";
        "<div class=" +:+ dq +:+ "content" +:+ dq;
        "<div class=" +:+ dq +:+ "article" +:+ dq;
        "<main" ] in
    let has_content :=
      existsb (fun container => contains container html_content)
              content_containers in
    if negb has_content then false
    else if 500000 <? len html_content then false
    else true.

(** The selectors of the content regions in [_enhance_content_images]. *)
Definition content_selectors : list Dom.selector :=
  [ Dom.ByTag "article"; Dom.ByClass "article"; Dom.ByClass "content";
    Dom.ByTag "main"; Dom.ByClass "main"; Dom.ByClass "post";
    Dom.ByClass "entry"; Dom.ByAttr "itemprop" "articleBody";
    Dom.ByClass "story" ].

Definition excluded_terms : list string := [ "ad"; "banner"; "icon"; "logo" ].

Definition protective_class : string := "content-image-preserve".

Definition protective_style : string :=
  "; max-width: 100% !important; height: auto !important;".

(** The body of the loop over the images of one region, on the image at a
    path of the tree: [None] for [continue], the updated tree otherwise;
    [int] may raise. *)
Definition protect_image (doc : node) (img : Dom.path)
  : result (option node) :=
  match Dom.get doc img with
  | Some (Elem _ attrs _) =>
      let width := Dom.attr "width" attrs in
      match (match width with
             | Some width =>
                 if (nonempty width && isdigit width)%bool
                 then match int width with
                      | Ok n => Ok (n <? 50)
                      | Raise e => Raise e
                      end
                 else Ok false
             | None => Ok false
             end) with
      | Raise e => Raise e
      | Ok true => Ok None
      | Ok false =>
          let img_class := lower (Dom.attr_or_empty "class" attrs) in
          let img_src := lower (Dom.attr_or_empty "src" attrs) in
          if existsb (fun term => (contains term img_class
                                   || contains term img_src)%bool)
                     excluded_terms
          then Ok None
          else
            Ok (Some (Dom.update
              (fun n =>
                 match n with
                 | Elem tag attrs children =>
                     let attrs :=
                       Dom.set_attr "class"
                         (strip (Dom.attr_or_empty "class" attrs +:+ " "
                                 +:+ protective_class)) attrs in
                     let attrs :=
                       Dom.set_attr "style"
                         (strip (Dom.attr_or_empty "style" attrs
                                 +:+ protective_style)) attrs in
                     Elem tag attrs children
                 | Text s => Text s
                 end) img doc))
      end
  | _ => Ok None
  end.

(** The loop over the images of one region, inside its [try]: an exception
    ends the loop, and what was done to the tree before stays. *)
Fixpoint protect_images (doc : node) (imgs : list Dom.path) : node :=
  match imgs with
  | [] => doc
  | img :: rest =>
      match protect_image doc img with
      | Ok (Some doc') => protect_images doc' rest
      | Ok None => protect_images doc rest
      | Raise _ => doc
      end
  end.

(** The images of a region, by their paths from the root. *)
Definition images_of (doc : node) (element : Dom.path) : list Dom.path :=
  match Dom.get doc element with
  | Some n => map (app element) (Dom.cssselect (Dom.ByTag "img") n)
  | None => []
  end.

(** The pass over a parsed document. *)
Definition enhance_document (doc : node) : node :=
  let content_elements :=
    concat (map (fun selector => Dom.cssselect selector doc) content_selectors) in
  fold_left (fun doc element => protect_images doc (images_of doc element))
            content_elements doc.

(** [_enhance_content_images]. *)
Definition _enhance_content_images (html_content : string) : M string :=
  try_except
    (doc ← lift (document_fromstring E html_content);
     mret (tostring E (enhance_document doc)))
    (fun e =>
       log_at "warning" ("Error enhancing content images: " +:+ exn_str e) ;;
       mret html_content).

(** [if article_data and article_data.get("text")]. *)
Definition has_text (article_data : option dict) : bool :=
  match article_data with
  | Some d => (negb (bool_decide (d = ∅)) && truthy (dict_get d "text"))%bool
  | None => false
  end.

(** The call of [_build_clean_article_html] on an extracted article. *)
Definition rebuild (article_data : dict) (url : string) (include_images : bool)
  : result string :=
  _build_clean_article_html
    (default (VStr EmptyString) (article_data !! "title"))
    (default (VStr EmptyString) (article_data !! "text"))
    (dict_get article_data "top_image")
    (default (VList []) (article_data !! "images"))
    url include_images.

(** The minimal transform. *)
Definition minimal (html_content url : string) (include_images : bool)
  : string :=
  _prepare_html_for_better_layout (_selective_layout_cleaning html_content)
                                  url include_images.

(** Step 4 of [convert_html_to_pdf]: the layout-repair stylesheet. *)
Definition inject_layout_repair (cleaned_html : string) : string :=
  if contains "</head>" cleaned_html
  then replace "</head>" (_get_layout_repair_css +:+ "</head>") cleaned_html
  else cleaned_html.

(** Step 3 of [convert_html_to_pdf] for a strategy that is not extract. *)
Definition prepare_minimal (html_content url : string) (include_images : bool)
  : M string :=
  log "Using 'minimal' strategy - preserving layout with selective cleaning" ;;
  let cleaned_html := minimal html_content url include_images in
  if negb (_is_valid_processed_html cleaned_html) then
    log "Minimal strategy produced poor results, falling back to extract" ;;
    article_data ← extract_article E self url;
    match article_data with
    | Some d =>
        if has_text article_data
        then lift (rebuild d url include_images)
        else mret cleaned_html
    | None => mret cleaned_html
    end
  else mret cleaned_html.

(** Step 3 of [convert_html_to_pdf] for the extract strategy. *)
Definition prepare_extract (html_content url : string) (include_images : bool)
  : M string :=
  log "Using 'extract' strategy - extracting and rebuilding content" ;;
  article_data ← extract_article E self url;
  match article_data with
  | Some d =>
      if has_text article_data then
        cleaned_html ← lift (rebuild d url include_images);
        log ("Created clean article HTML from extracted content ("
             +:+ pretty_nat_len cleaned_html +:+ " bytes)") ;;
        mret cleaned_html
      else
        log "Extraction failed, falling back to selective cleaning" ;;
        mret (minimal html_content url include_images)
  | None =>
      log "Extraction failed, falling back to selective cleaning" ;;
      mret (minimal html_content url include_images)
  end.

(** [convert_html_to_pdf], from its first line to the html that is handed
    to the rasterizer; the strategy that was resolved comes with it. *)
Definition prepare_html (html_content wkhtmltopdf_path url : string)
    (include_images : bool) (ad_removal_strategy : string)
  : M (string * string) :=
  log "Starting enhanced PDF conversion process" ;;
  log ("HTML content size: " +:+ pretty_nat_len html_content +:+ " bytes") ;;
  log ("Using wkhtmltopdf path: " +:+ wkhtmltopdf_path) ;;
  wordpress ← _is_wordpress_site self html_content url;
  blog ← (if wordpress : bool then
            log "WordPress site detected, applying specialized processing" ;;
            rebuilt ← (w ← get_world;
                       lift (process_wordpress_html E html_content url w));
            mret (rebuilt, "extract")
          else mret (html_content, ad_removal_strategy));
  let html_content := fst blog in
  let ad_removal_strategy := snd blog in
  ad_removal_strategy ←
    (if String.eqb ad_removal_strategy "auto" then
       chosen ← _determine_best_strategy self html_content url;
       log ("Auto-selected strategy: " +:+ chosen
            +:+ " based on layout analysis") ;;
       mret chosen
     else mret ad_removal_strategy);
  html_content ←
    (if include_images : bool then
       enhanced ← _enhance_content_images html_content;
       log "Enhanced content images with protective markup" ;;
       mret enhanced
     else mret html_content);
  cleaned_html ←
    (if String.eqb ad_removal_strategy "extract"
     then prepare_extract html_content url include_images
     else prepare_minimal html_content url include_images);
  mret (inject_layout_repair cleaned_html, ad_removal_strategy).

(** The directory for the rasterizer's runtime files: a failure to make it
    is logged and passed over. *)
Definition set_runtime_dir : M unit :=
  try_except
    (let runtime_dir := "/tmp/runtime-pdf" in
     record (MakeDirs runtime_dir) ;;
     w ← get_world;
     match makedirs_error E runtime_dir w with
     | Some e => raise e
     | None =>
         set_environ "XDG_RUNTIME_DIR" runtime_dir ;;
         log ("Set XDG_RUNTIME_DIR to " +:+ runtime_dir)
     end)
    (fun runtime_error =>
       log_at "warning" ("Failed to create runtime directory: "
                         +:+ exn_str runtime_error) ;;
       set_environ "QT_LOGGING_RULES" "qt.qpa.xcb=false;*.debug=false").

(** [temp_html.write(...)]. *)
Definition write_file (path content : string) : M unit :=
  record (WriteFile path) ;;
  w ← get_world;
  match write_error E path w with
  | Some e => raise e
  | None => set_fs (<[path := content]>)
  end.

(** The command line of the rasterizer. *)
Definition rasterizer_cmd (wkhtmltopdf_path : string) (include_images : bool)
    (temp_html_path pdf_path : string) : list string :=
  [ wkhtmltopdf_path;
    "--quiet";
    "--page-size"; "A4";
    "--encoding"; "UTF-8";
    "--enable-local-file-access";
    "--margin-top"; "10mm";
    "--margin-right"; "10mm";
    "--margin-bottom"; "15mm";
    "--margin-left"; "10mm";
    "--disable-javascript";
    "--load-error-handling"; "ignore";
    "--load-media-error-handling"; "ignore";
    "--no-stop-slow-scripts";
    "--disable-smart-shrinking" ]
  ++ [ if include_images then "--images" else "--no-images" ]
  ++ [ temp_html_path; pdf_path ].

Definition timeout_seconds : Z := 120.

(** [subprocess.run(cmd, ..., timeout=timeout_seconds)]: whatever way it
    ends, the file system is as the process left it. *)
Definition run_rasterizer (cmd : list string) : M completed :=
  record (Rasterize cmd) ;;
  w ← get_world;
  let '(outcome, files) := rasterizer_run E cmd timeout_seconds w in
  set_fs (fun _ => files) ;;
  lift outcome.

(** The rasterizer and what follows it, once both temporary files exist. *)
Definition rasterize (wkhtmltopdf_path : string) (include_images : bool)
    (temp_html_path pdf_path : string) : M (option string) :=
  log ("Using temporary files: HTML=" +:+ temp_html_path +:+ ", PDF="
       +:+ pdf_path) ;;
  let cmd := rasterizer_cmd wkhtmltopdf_path include_images
                            temp_html_path pdf_path in
  log ("Executing command: "
       +:+ fold_right (fun a acc => if nonempty acc then a +:+ " " +:+ acc else a)
                      EmptyString cmd) ;;
  process ← run_rasterizer cmd;
  log ("Command exit code: " +:+ pretty (returncode process)) ;;
  (if nonempty (proc_stdout process)
   then log ("Command stdout: " +:+ slice_to (proc_stdout process) 500)
   else mret tt) ;;
  (if nonempty (proc_stderr process)
   then log_at "warning" ("Command stderr: "
                          +:+ slice_to (proc_stderr process) 500)
   else mret tt) ;;
  if negb (returncode process =? 0) then
    log_at "error" ("wkhtmltopdf command failed with code "
                    +:+ pretty (returncode process)) ;;
    mret None
  else
    w ← get_world;
    match fs w !! pdf_path with
    | Some pdf_content =>
        if 0 <? len pdf_content then
          log ("Successfully generated PDF, size: "
               +:+ pretty_nat_len pdf_content +:+ " bytes") ;;
          mret (Some pdf_content)
        else
          log_at "error" "PDF file not created or empty" ;; mret None
    | None => log_at "error" "PDF file not created or empty" ;; mret None
    end.

(** The values of the local variables [temp_html_path] and [pdf_path]. *)
Record temp_paths := TempPaths {
  temp_html_path : option string;
  pdf_path : option string
}.

(** The two [except] clauses of the inner [try]: both log and return
    [None]. *)
Definition inner_handler (e : exn) : M (option string) :=
  match exn_class_of e with
  | TimeoutExpired =>
      log_at "error" ("PDF conversion timed out: " +:+ exn_str e) ;; mret None
  | _ =>
      log_at "error" ("Error with temp files: " +:+ exn_str e) ;; mret None
  end.

(** The inner [try] of [convert_html_to_pdf] with the local variables it
    leaves behind.  The path of the html file is assigned after the file was
    written, the path of the pdf file when that file was made. *)
Definition temp_files_block (cleaned_html wkhtmltopdf_path : string)
    (include_images : bool) : world -> (result (option string) * temp_paths) * world :=
  fun w =>
    match (path ← new_temp_file E ".html";
           write_file path cleaned_html ;;
           mret path) w with
    | (Raise e, w1) =>
        let '(r, w2) := inner_handler e w1 in
        ((r, TempPaths None None), w2)
    | (Ok html_path, w1) =>
        match new_temp_file E ".pdf" w1 with
        | (Raise e, w2) =>
            let '(r, w3) := inner_handler e w2 in
            ((r, TempPaths (Some html_path) None), w3)
        | (Ok pdf, w2) =>
            let '(r, w3) :=
              try_except (rasterize wkhtmltopdf_path include_images html_path pdf)
                         inner_handler w2 in
            ((r, TempPaths (Some html_path) (Some pdf)), w3)
        end
    end.

(** The body of the loop of [_cleanup_temp_files]. *)
Definition cleanup_one (file_path : option string) : M unit :=
  match file_path with
  | Some path =>
      w ← get_world;
      if (nonempty path && exists_file path w)%bool then
        try_except
          (os_unlink E path ;;
           log ("Deleted temp file: " +:+ path))
          (fun e => log_at "warning"
                      ("Failed to delete temp file " +:+ path +:+ ": "
                       +:+ exn_str e))
      else mret tt
  | None => mret tt
  end.

(** [_cleanup_temp_files]. *)
Fixpoint _cleanup_temp_files (file_paths : list (option string)) : M unit :=
  match file_paths with
  | [] => mret tt
  | file_path :: rest => cleanup_one file_path ;; _cleanup_temp_files rest
  end.

(** The [try] of [convert_html_to_pdf] without its outer [except] and its
    [finally]: what it returns or raises, and the local variables it
    leaves. *)
Definition render_body (html_content wkhtmltopdf_path url : string)
    (include_images : bool) (ad_removal_strategy : string)
  : world -> (result (option string) * temp_paths) * world :=
  fun w =>
    match (prepared ← prepare_html html_content wkhtmltopdf_path url
                                  include_images ad_removal_strategy;
           set_runtime_dir ;;
           mret (fst prepared)) w with
    | (Raise e, w1) => ((Raise e, TempPaths None None), w1)
    | (Ok cleaned_html, w1) =>
        temp_files_block cleaned_html wkhtmltopdf_path include_images w1
    end.

(** [convert_html_to_pdf]. *)
Definition convert_html_to_pdf (html_content wkhtmltopdf_path url : string)
    (preserve_layout include_images : bool) (image_quality : Z)
    (ad_removal_strategy : string) : M (option string) :=
  fun w =>
    let '((outcome, paths), w1) :=
      render_body html_content wkhtmltopdf_path url include_images
                  ad_removal_strategy w in
    let '(returned, w2) :=
      match outcome with
      | Ok pdf_content => (Ok pdf_content, w1)
      | Raise e =>
          (log_at "error" ("Error converting HTML to PDF: " +:+ exn_str e) ;;
           log_traceback e ;;
           mret None) w1
      end in
    let '(cleaned, w3) :=
      _cleanup_temp_files [temp_html_path paths; pdf_path paths] w2 in
    match cleaned with
    | Ok _ => (returned, w3)
    | Raise e => (Raise e, w3)
    end.

End Renderer.

(** ** Worlds before and after *)

(** The world with one more call, or with one more log line. *)
Definition called (w : world) (c : call) : world :=
  World (fs w) (environ w) (calls w ++ [c]) (logs w).

Definition logged (w : world) (level message : string) : world :=
  World (fs w) (environ w) (calls w) (logs w ++ [(level, message)]).

Definition with_fs (w : world) (f : gmap string string) : world :=
  World f (environ w) (calls w) (logs w).

(** What holds after [m] ran in [w]: [Q] of the value and the world it
    returns in, [R] of the exception and the world it raises in. *)
Definition wp {A} (m : M A) (Q : A -> world -> Prop) (R : exn -> world -> Prop)
    (w : world) : Prop :=
  match m w with
  | (Ok a, w') => Q a w'
  | (Raise e, w') => R e w'
  end.

(** ** Vocabulary of the properties of strings *)

(** [quiet_before old s]: no occurrence of [old] starts inside [s], whatever
    follows [s]. *)
Fixpoint quiet_before (old s : string) : bool :=
  match s with
  | EmptyString => true
  | String _ t =>
      (negb (if Nat.leb (String.length old) (String.length s)
             then String.prefix old s else String.prefix s old)
       && quiet_before old t)%bool
  end.

(** ** Vocabulary of the renderer's properties *)

(** The line [_cleanup_temp_files] logs when the system refuses to delete a
    file. *)
Definition delete_warning (path : string) (e : exn) : string * string :=
  ("warning", "Failed to delete temp file " +:+ path +:+ ": " +:+ exn_str e).

(** The file is gone, or its deletion was refused and logged. *)
Definition gone_or_refused (path : string) (w : world) : Prop :=
  fs w !! path = None \/ exists e, In (delete_warning path e) (logs w).

(** From [w] to [w'] no file appeared and no log line was lost. *)
Definition only_shrinks (w w' : world) : Prop :=
  (forall q, fs w !! q = None -> fs w' !! q = None)
  /\ (forall line, In line (logs w) -> In line (logs w')).

(** ** Vocabulary of the extractor's properties *)

(** [quiet w w']: from [w] to [w'] only log lines were written. *)
Definition quiet (w w' : world) : Prop :=
  fs w' = fs w /\ environ w' = environ w /\ calls w' = calls w /\
  exists lines, logs w' = logs w ++ lines.

Section ExtractorVocabulary.

Variable E : env.
Variable self : processor.

(** The dictionaries a technique hands back: the result built from a parsed
    article, a failure without text, or a failure that carries a text too
    short to count. *)
Inductive produced : dict -> Prop :=
| produced_article a h : produced (_build_article_result a h)
| produced_failure error : produced (failure error VNone)
| produced_short error text :
    text_above_minimum text = false -> produced (failure error (VStr text)).

(** [ladder url methods w res w']: starting in [w], the methods run one after
    the other, each in the world its predecessor left (log lines apart) and
    each to its end, up to the first whose result is valid; that result,
    tagged with the method's name, is [res], and [res] is [None] when the
    methods are exhausted. *)
Inductive ladder (url : string)
  : list (string * (string -> M dict)) -> world -> option dict -> world -> Prop :=
| ladder_exhausted w : ladder url [] w None w
| ladder_hit name f rest w w0 d w1 :
    quiet w w0 ->
    f url w0 = (Ok d, w1) ->
    _is_valid_result d = Ok true ->
    ladder url ((name, f) :: rest) w
           (Some (<["extraction_method" := VStr name]> d)) w1
| ladder_miss name f rest w w0 d w1 res w' :
    quiet w w0 ->
    f url w0 = (Ok d, w1) ->
    _is_valid_result d = Ok false ->
    ladder url rest w1 res w' ->
    ladder url ((name, f) :: rest) w res w'.

(** A computation that returns a produced dictionary and never raises. *)
Definition technique_ok (m : M dict) : Prop :=
  forall w, wp m (fun d _ => produced d) (fun _ _ => False) w.

End ExtractorVocabulary.

(** ** Sample worlds

    Concrete collaborators, for running the pipeline on examples. *)

Module Sample.

Definition DEFAULT_USER_AGENT : string :=
  "Mozilla/5.0 (Windows NT 10.0; Win64; x64) AppleWebKit/537.36 (KHTML, like Gecko) Chrome/115.0.0.0 Safari/537.36".

Definition proc : processor := Processor DEFAULT_USER_AGENT None.

(** Nothing on disk, nothing called, nothing logged. *)
Definition start : world := World ∅ ∅ [] [].

(** 118 characters of body text. *)
Definition body_text : string :=
  "Researchers found a new strain of the loader in the wild; it drops a second stage and talks to a server over plain HTTP.".

Definition page : string :=
  "<html><head><title>Loader</title></head><body><article><h1>Loader</h1><p>"
  +:+ body_text +:+ "</p></article></body></html>".

Definition story : article :=
  Article page "Loader" body_text ["A. Writer"] (Some (Ok "2024-05-01"))
          EmptyString [] [].

Definition refused {A} : result A :=
  Raise (Exn OtherException "connection refused").

Definition done_process (code : Z) : completed :=
  Completed code EmptyString EmptyString.

(** A site that answers every client. *)
Definition friendly : env := {|
  article_download := fun _ _ => Ok page;
  article_parse := fun _ _ _ => Ok story;
  temp_name := fun suffix w =>
    Ok ("/tmp/tmp" +:+ pretty (Z.of_nat (length (calls w))) +:+ suffix);
  wget_run := fun _ _ => Ok (done_process 0, Some page);
  decode_replace := fun content => content;
  http_get := fun _ _ _ => Ok (Response 200 page);
  urljoin := fun _ target => Ok target;
  document_fromstring := fun _ => refused;
  tostring := fun _ => EmptyString;
  process_wordpress_html := fun html _ _ => Ok html;
  write_error := fun _ _ => None;
  unlink_error := fun _ _ => None;
  makedirs_error := fun _ _ => None;
  rasterizer_run := fun cmd _ w =>
    (Ok (done_process 0), <[List.last cmd EmptyString := "%PDF-1.4"]> (fs w))
|}.

(** A site no client gets through to: the download leaves no html, wget
    exits with 8, the homepage refuses the connection and the article
    answers 403. *)
Definition hostile : env := {|
  article_download := fun _ _ => Ok EmptyString;
  article_parse := fun _ _ _ => refused;
  temp_name := fun suffix w =>
    Ok ("/tmp/tmp" +:+ pretty (Z.of_nat (length (calls w))) +:+ suffix);
  wget_run := fun _ _ => Ok (done_process 8, Some EmptyString);
  decode_replace := fun content => content;
  http_get := fun url timeout _ =>
    if timeout =? 30 then refused else Ok (Response 403 EmptyString);
  urljoin := fun _ target => Ok target;
  document_fromstring := fun _ => refused;
  tostring := fun _ => EmptyString;
  process_wordpress_html := fun html _ _ => Ok html;
  write_error := fun _ _ => None;
  unlink_error := fun _ _ => None;
  makedirs_error := fun _ _ => None;
  rasterizer_run := fun _ _ w => (Ok (done_process 0), fs w)
|}.

(** The friendly site on a machine that refuses to delete files. *)
Definition stubborn : env := {|
  article_download := article_download friendly;
  article_parse := article_parse friendly;
  temp_name := temp_name friendly;
  wget_run := wget_run friendly;
  decode_replace := decode_replace friendly;
  http_get := http_get friendly;
  urljoin := urljoin friendly;
  document_fromstring := document_fromstring friendly;
  tostring := tostring friendly;
  process_wordpress_html := process_wordpress_html friendly;
  write_error := write_error friendly;
  unlink_error := fun _ _ => Some (Exn OSError "Permission denied");
  makedirs_error := makedirs_error friendly;
  rasterizer_run := rasterizer_run friendly
|}.

(** The friendly site on a machine whose rasterizer does not finish in
    time. *)
Definition slow : env := {|
  article_download := article_download friendly;
  article_parse := article_parse friendly;
  temp_name := temp_name friendly;
  wget_run := wget_run friendly;
  decode_replace := decode_replace friendly;
  http_get := http_get friendly;
  urljoin := urljoin friendly;
  document_fromstring := document_fromstring friendly;
  tostring := tostring friendly;
  process_wordpress_html := process_wordpress_html friendly;
  write_error := write_error friendly;
  unlink_error := unlink_error friendly;
  makedirs_error := makedirs_error friendly;
  rasterizer_run := fun _ _ w =>
    (Raise (Exn TimeoutExpired "timed out after 120 seconds"), fs w)
|}.

(** The friendly site on a machine whose disk is full. *)
Definition full_disk : env := {|
  article_download := article_download friendly;
  article_parse := article_parse friendly;
  temp_name := temp_name friendly;
  wget_run := wget_run friendly;
  decode_replace := decode_replace friendly;
  http_get := http_get friendly;
  urljoin := urljoin friendly;
  document_fromstring := document_fromstring friendly;
  tostring := tostring friendly;
  process_wordpress_html := process_wordpress_html friendly;
  write_error := fun _ _ => Some (Exn OSError "No space left on device");
  unlink_error := unlink_error friendly;
  makedirs_error := makedirs_error friendly;
  rasterizer_run := rasterizer_run friendly
|}.

End Sample.
(** ** Reasoning about computations *)


Lemma wp_run {A} (m : M A) Q R w :
  wp m Q R w ->
  (exists a w', m w = (Ok a, w') /\ Q a w') \/
  (exists e w', m w = (Raise e, w') /\ R e w').
Proof.
  unfold wp. destruct (m w) as [[a|e] w']; eauto.
Qed.

Lemma wp_run_eq {A} (m : M A) (Q : A -> world -> Prop)
    (R : exn -> world -> Prop) w :
  (forall a w', m w = (Ok a, w') -> Q a w') ->
  (forall e w', m w = (Raise e, w') -> R e w') ->
  wp m Q R w.
Proof.
  unfold wp. intros HQ HR. destruct (m w) as [[a|e] w']; auto.
Qed.

Lemma wp_trivial {A} (m : M A) w :
  wp m (fun _ _ => True) (fun _ _ => True) w.
Proof. unfold wp. now destruct (m w) as [[a|e] w']. Qed.

Lemma wp_mono {A} (m : M A) (Q Q' : A -> world -> Prop)
    (R R' : exn -> world -> Prop) w :
  (forall a w', Q a w' -> Q' a w') ->
  (forall e w', R e w' -> R' e w') ->
  wp m Q R w -> wp m Q' R' w.
Proof.
  unfold wp. intros HQ HR. destruct (m w) as [[a|e] w']; auto.
Qed.

Lemma wp_bind {A B} (m : M A) (k : A -> M B) Q R w :
  wp m (fun a w' => wp (k a) Q R w') R w -> wp (m ≫= k) Q R w.
Proof.
  unfold wp, mbind, M_bind, bind. destruct (m w) as [[a|e] w']; auto.
Qed.

Lemma wp_ret {A} (a : A) (Q : A -> world -> Prop) R w :
  Q a w -> wp (mret a) Q R w.
Proof. exact (fun H => H). Qed.

Lemma wp_lift {A} (r : result A) (Q : A -> world -> Prop)
    (R : exn -> world -> Prop) w :
  match r with Ok a => Q a w | Raise e => R e w end -> wp (lift r) Q R w.
Proof. unfold wp, lift. destruct r; auto. Qed.

Lemma wp_raise {A} e (Q : A -> world -> Prop) (R : exn -> world -> Prop) w :
  R e w -> wp (raise e) Q R w.
Proof. exact (fun H => H). Qed.

Lemma wp_try {A} (body : M A) handler Q R w :
  wp body Q (fun e w' => wp (handler e) Q R w') w ->
  wp (try_except body handler) Q R w.
Proof.
  unfold wp, try_except. destruct (body w) as [[a|e] w']; auto.
Qed.

Lemma wp_get_world (Q : world -> world -> Prop) R w :
  Q w w -> wp get_world Q R w.
Proof. exact (fun H => H). Qed.


Lemma wp_record c (Q : unit -> world -> Prop) R w :
  Q tt (called w c) -> wp (record c) Q R w.
Proof. exact (fun H => H). Qed.

Lemma wp_log_at level message (Q : unit -> world -> Prop) R w :
  Q tt (logged w level message) -> wp (log_at level message) Q R w.
Proof. exact (fun H => H). Qed.

Lemma wp_log message (Q : unit -> world -> Prop) R w :
  Q tt (logged w "info" message) -> wp (log message) Q R w.
Proof. exact (fun H => H). Qed.

Lemma wp_log_traceback e (Q : unit -> world -> Prop) R w :
  Q tt (logged w "traceback" (exn_str e)) -> wp (log_traceback e) Q R w.
Proof. exact (fun H => H). Qed.

Lemma wp_set_fs f (Q : unit -> world -> Prop) R w :
  Q tt (with_fs w (f (fs w))) -> wp (set_fs f) Q R w.
Proof. exact (fun H => H). Qed.

Lemma wp_ask {A} c (oracle : world -> result A) (Q : A -> world -> Prop)
    (R : exn -> world -> Prop) w :
  match oracle (called w c) with
  | Ok a => Q a (called w c)
  | Raise e => R e (called w c)
  end ->
  wp (ask c oracle) Q R w.
Proof.
  intros H. unfold ask. apply wp_bind, wp_record, wp_bind, wp_get_world.
  now apply wp_lift.
Qed.

Lemma wp_try_var {V A} (assign : M V) (rest : V -> M A) handler Q R w :
  wp assign
     (fun v w' => wp (rest v) Q (fun e w'' => wp (handler (Some v) e) Q R w'') w')
     (fun e w' => wp (handler None e) Q R w') w ->
  wp (try_except_var assign rest handler) Q R w.
Proof.
  unfold wp, try_except_var.
  destruct (assign w) as [[v|e] w']; auto.
  destruct (rest v w') as [[a|e] w'']; auto.
Qed.

(** One step of a computation, by the shape of its head. *)
Ltac wp_step :=
  lazymatch goal with
  | |- wp (mbind _ _) _ _ _ => apply wp_bind
  | |- wp (mret _) _ _ _ => apply wp_ret
  | |- wp (log _) _ _ _ => apply wp_log
  | |- wp (log_at _ _) _ _ _ => apply wp_log_at
  | |- wp (log_traceback _) _ _ _ => apply wp_log_traceback
  | |- wp (record _) _ _ _ => apply wp_record
  | |- wp (set_fs _) _ _ _ => apply wp_set_fs
  | |- wp get_world _ _ _ => apply wp_get_world
  | |- wp (lift _) _ _ _ => apply wp_lift
  | |- wp (raise _) _ _ _ => apply wp_raise
  | |- wp (ask _ _) _ _ _ => apply wp_ask
  | |- wp (try_except _ _) _ _ _ => apply wp_try
  | |- wp (try_except_var _ _ _) _ _ _ => apply wp_try_var
  | |- wp (if ?b then _ else _) _ _ _ => destruct b eqn:?
  | |- wp (match ?x with _ => _ end) _ _ _ => destruct x eqn:?
  | |- match ?x with _ => _ end => destruct x eqn:?
  end.

Ltac wp_auto := repeat (wp_step; cbv beta).

(** ** The Article Extractor *)

Lemma quiet_refl w : quiet w w.
Proof. repeat split; auto. exists []. now rewrite app_nil_r. Qed.

Lemma quiet_trans w1 w2 w3 : quiet w1 w2 -> quiet w2 w3 -> quiet w1 w3.
Proof.
  intros (F1 & V1 & C1 & l1 & L1) (F2 & V2 & C2 & l2 & L2).
  repeat split; try congruence.
  exists (l1 ++ l2). now rewrite L2, L1, <- app_assoc.
Qed.

Lemma quiet_logged w level message : quiet w (logged w level message).
Proof. repeat split; auto. now eexists. Qed.

Lemma quiet_logged_r w w' level message :
  quiet w w' -> quiet w (logged w' level message).
Proof. intros H. eapply quiet_trans; [exact H | apply quiet_logged]. Qed.

#[local] Hint Resolve quiet_refl quiet_logged quiet_logged_r : core.

Lemma above_ge text :
  text_above_minimum text = true ->
  nonempty text = true /\ MIN_TEXT_LENGTH < len (strip text).
Proof.
  unfold text_above_minimum. intros [H1 H2]%andb_true_iff.
  split; [done | lia].
Qed.

Lemma below_not_above text :
  text_below_minimum text = true -> text_above_minimum text = false.
Proof.
  unfold text_below_minimum, text_above_minimum.
  intros [H | H]%orb_true_iff.
  - apply negb_true_iff in H. now rewrite H.
  - apply andb_false_iff. right. lia.
Qed.

Lemma failure_not_empty error text : failure error text <> ∅.
Proof. apply insert_non_empty. Qed.

Lemma failure_text error text : failure error text !! "text" = Some text.
Proof. unfold failure. now simplify_map_eq. Qed.

Lemma valid_failure_none error : _is_valid_result (failure error VNone) = Ok false.
Proof.
  unfold _is_valid_result.
  destruct (decide _) as [H|_]; [now apply failure_not_empty in H|].
  now rewrite failure_text.
Qed.

Lemma valid_failure_short error text :
  text_above_minimum text = false ->
  _is_valid_result (failure error (VStr text)) = Ok false.
Proof.
  intros H. unfold _is_valid_result.
  destruct (decide _) as [H'|_]; [now apply failure_not_empty in H'|].
  rewrite failure_text. unfold text_above_minimum in H.
  destruct (nonempty text); [|done]. simpl in H. now rewrite H.
Qed.

Lemma built_text a h :
  _build_article_result a h !! "text" = Some (VStr (art_text a)).
Proof. unfold _build_article_result. now simplify_map_eq. Qed.

Lemma built_error a h : _build_article_result a h !! "error" = Some VNone.
Proof. unfold _build_article_result. now simplify_map_eq. Qed.

Lemma valid_built a h :
  _is_valid_result (_build_article_result a h)
  = Ok (text_above_minimum (art_text a)).
Proof.
  unfold _is_valid_result.
  destruct (decide _) as [H|_].
  - pose proof (built_text a h) as Ht. rewrite H in Ht. done.
  - rewrite built_text. unfold text_above_minimum.
    now destruct (nonempty (art_text a)).
Qed.

(** The validity check, from its definition: exactly the dictionaries with a
    text of more than [MIN_TEXT_LENGTH] characters once trimmed pass, and a
    text that is a string never makes the check raise. *)
Lemma valid_iff (d : dict) :
  _is_valid_result d = Ok true <->
  exists text, d !! "text" = Some (VStr text)
               /\ MIN_TEXT_LENGTH < len (strip text).
Proof.
  unfold _is_valid_result. split.
  - destruct (decide (d = ∅)); [done|].
    destruct (d !! "text") as [[|text|l]|]; try done.
    + destruct (nonempty text); [|done].
      intros [= H]. exists text. split; [done | lia].
    + now destruct (truthy (VList l)).
  - intros (text & Ht & Hlen).
    destruct (decide (d = ∅)) as [->|_]; [done|].
    rewrite Ht.
    destruct text as [|c t]; [now vm_compute in Hlen|].
    change (nonempty (String c t)) with true. cbv iota.
    f_equal. now apply Z.ltb_lt.
Qed.

(** What the validity check says of a dictionary a technique produced. *)
Lemma valid_produced d :
  produced d ->
  exists b, _is_valid_result d = Ok b /\
            (b = true -> d !! "error" = Some VNone).
Proof.
  intros [a h | error | error text Hshort].
  - eexists. split; [apply valid_built|]. intros _. apply built_error.
  - exists false. split; [apply valid_failure_none | done].
  - exists false. split; [now apply valid_failure_short | done].
Qed.

Section ExtractorFacts.

Variable E : env.
Variable self : processor.

Lemma cleanup_returns path (Q : unit -> world -> Prop) R w :
  (forall w', Q tt w') -> wp (_cleanup_temp_file E path) Q R w.
Proof.
  intros HQ. unfold _cleanup_temp_file, os_unlink.
  destruct path as [p|]; wp_auto; auto.
Qed.

Lemma standard_ok url : technique_ok (_extract_standard E self url).
Proof.
  intros w. unfold _extract_standard.
  wp_auto; try constructor.
  now apply below_not_above.
Qed.

Lemma direct_ok url : technique_ok (_extract_direct E self url).
Proof.
  intros w. unfold _extract_direct, new_temp_file, getsize, read_text.
  wp_auto; repeat (apply cleanup_returns; intros; wp_auto);
    try constructor; auto.
Qed.

Lemma homepage_returns domain (Q : unit -> world -> Prop) R w :
  (forall w', Q tt w') -> wp (visit_homepage E domain) Q R w.
Proof. intros HQ. unfold visit_homepage. wp_auto; auto. Qed.

Lemma target_produced url w :
  wp (visit_target E url) (fun d _ => produced d) (fun _ _ => True) w.
Proof.
  unfold visit_target. wp_auto; auto;
    try match goal with
        | |- produced (failure _ (if ?b then _ else _)) => destruct b
        end;
    try constructor; auto.
Qed.

Lemma advanced_ok url : technique_ok (_extract_advanced E self url).
Proof.
  intros w. unfold _extract_advanced.
  wp_auto; try constructor.
  apply homepage_returns. intros w'.
  eapply wp_mono; [| |apply target_produced]; cbv beta.
  - auto.
  - intros e w'' _. wp_auto. constructor.
Qed.

Lemma methods_ok url :
  Forall (fun m => technique_ok (snd m url)) (extraction_methods E self).
Proof.
  repeat constructor; simpl.
  - apply standard_ok.
  - apply direct_ok.
  - apply advanced_ok.
Qed.

(** The loop over any list of well-behaved methods climbs the ladder. *)
Lemma try_methods_ladder url methods :
  Forall (fun m => technique_ok (snd m url)) methods ->
  forall w w0, quiet w w0 ->
  wp (try_methods methods url)
     (fun res w' => exists w1, ladder url methods w res w1 /\ quiet w1 w')
     (fun _ _ => False) w0.
Proof.
  induction 1 as [|[name f] rest Hf _ IH]; intros w w0 Hq; simpl.
  - wp_auto. exists w. split; [constructor | auto].
  - wp_step. wp_step. cbv beta. wp_step.
    apply wp_run_eq.
    + intros d w1 Hfd.
      match type of Hfd with f url ?v = _ => pose proof (Hf v) as Hrun end.
      simpl in Hrun. unfold wp in Hrun. rewrite Hfd in Hrun.
      destruct (valid_produced d Hrun) as (b & Hb & _).
      wp_step. rewrite Hb. apply wp_lift. destruct b.
      * wp_auto. exists w1. split; [|auto].
        eapply ladder_hit; [|eassumption|assumption]; auto.
      * wp_step. wp_step. cbv beta.
        eapply wp_mono; [| |apply (IH w1)]; cbv beta; auto.
        intros res w' (w2 & Hl & Hq'). exists w2. split; [|done].
        eapply ladder_miss; [|eassumption|assumption|assumption]; auto.
    + intros e w1 Hfd.
      match type of Hfd with f url ?v = _ => pose proof (Hf v) as Hrun end.
      simpl in Hrun. unfold wp in Hrun. now rewrite Hfd in Hrun.
Qed.

(** [extract_article] returns, and what it returns is where the ladder of
    the three techniques ends. *)
Lemma extract_article_ladder url w :
  exists res w1 w',
    extract_article E self url w = (Ok res, w')
    /\ ladder url (extraction_methods E self) w res w1
    /\ quiet w1 w'.
Proof.
  pose proof (try_methods_ladder url _ (methods_ok url) w
    (logged w "info" ("====== STARTING EXTRACTION FOR URL: " +:+ url +:+ " ======"))
    ltac:(auto)) as H.
  unfold extract_article.
  assert (Hwp : wp (extract_article E self url)
    (fun res w' => exists w1,
       ladder url (extraction_methods E self) w res w1 /\ quiet w1 w')
    (fun _ _ => False) w).
  { unfold extract_article. wp_step. wp_step. wp_step. cbv beta.
    eapply wp_mono; [| |exact H]; cbv beta; auto. intros e w' []. }
  apply wp_run in Hwp as [(res & w' & Heq & w1 & Hl & Hq)|(e & w' & _ & [])].
  now exists res, w1, w'.
Qed.

(** What a ladder hands back was produced by one of its methods and passed
    the validity check. *)
Lemma ladder_some url methods w res w' d :
  ladder url methods w res w' ->
  res = Some d ->
  exists name f w0 w1 d0,
    In (name, f) methods /\ f url w0 = (Ok d0, w1)
    /\ _is_valid_result d0 = Ok true
    /\ d = <["extraction_method" := VStr name]> d0.
Proof.
  induction 1 as [|name f rest w w0 d0 w1 Hq Hf Hv
                  |name f rest w w0 d0 w1 res w' Hq Hf Hv Hl IH]; intros Hres.
  - done.
  - injection Hres as <-. exists name, f, w0, w1, d0.
    repeat split; auto. now left.
  - destruct (IH Hres) as (n & g & v0 & v1 & d1 & Hin & ?).
    exists n, g, v0, v1, d1. split; [now right | done].
Qed.

End ExtractorFacts.

Section ExtractorClaims.

Variable E : env.
Variable self : processor.

(** C1. [extract_article] tries the three techniques standard, direct_wget
    and advanced in this order, each run to its end in the world the one
    before left, and stops at the first whose result passes the validity
    check; it returns that result (tagged with the technique's name), or
    [None] when the three are exhausted; and it returns for every url in
    every world: no exception reaches the caller. *)
Theorem extract_article_tries_three_in_order url w :
  exists res w1 w',
    extract_article E self url w = (Ok res, w')
    /\ ladder url
         [ ("standard", _extract_standard E self);
           ("direct_wget", _extract_direct E self);
           ("advanced", _extract_advanced E self) ] w res w1
    /\ quiet w1 w'.
Proof. apply extract_article_ladder. Qed.

(** C2. Whatever [extract_article] returns has a text that is a string of
    more than [MIN_TEXT_LENGTH] = 100 characters once trimmed; a candidate
    whose text is missing, [None], or of trimmed length at most 100 fails the
    validity check. *)
Theorem extract_article_text_above_minimum url w r w' :
  extract_article E self url w = (Ok (Some r), w') ->
  (exists text, r !! "text" = Some (VStr text)
                /\ MIN_TEXT_LENGTH < len (strip text))
  /\ MIN_TEXT_LENGTH = 100
  /\ forall d : dict,
       (d !! "text" = None \/ d !! "text" = Some VNone
        \/ exists text, d !! "text" = Some (VStr text)
                        /\ len (strip text) <= MIN_TEXT_LENGTH) ->
       _is_valid_result d = Ok false.
Proof.
  intros Hrun. split; [|split; [done|]].
  - destruct (extract_article_ladder E self url w) as (res & w1 & w2 & Heq & Hl & _).
    rewrite Hrun in Heq. injection Heq as <- <-.
    destruct (ladder_some _ _ _ _ _ _ Hl eq_refl)
      as (name & f & v0 & v1 & d0 & _ & _ & Hv & ->).
    apply valid_iff in Hv as (text & Ht & Hlen).
    exists text. split; [|done].
    now rewrite lookup_insert_ne.
  - intros d Hd. unfold _is_valid_result.
    destruct (decide (d = ∅)); [done|].
    destruct Hd as [-> | [-> | (text & -> & Hlen)]]; try done.
    destruct (nonempty text); [|done]. f_equal. lia.
Qed.

(** C10. A dictionary [extract_article] returns carries no error, and its
    [extraction_method] is the name of the technique, one of the three, whose
    run produced it. *)
Theorem extract_article_method_and_error url w r w' :
  extract_article E self url w = (Ok (Some r), w') ->
  r !! "error" = Some VNone
  /\ exists name technique w0 w1 d,
       In (name, technique)
          [ ("standard", _extract_standard E self);
            ("direct_wget", _extract_direct E self);
            ("advanced", _extract_advanced E self) ]
       /\ technique url w0 = (Ok d, w1)
       /\ r = <["extraction_method" := VStr name]> d
       /\ r !! "extraction_method" = Some (VStr name).
Proof.
  intros Hrun.
  destruct (extract_article_ladder E self url w) as (res & w1 & w2 & Heq & Hl & _).
  rewrite Hrun in Heq. injection Heq as <- <-.
  destruct (ladder_some _ _ _ _ _ _ Hl eq_refl)
    as (name & f & v0 & v1 & d0 & Hin & Hf & Hv & ->).
  assert (Hprod : produced d0).
  { pose proof (methods_ok E self url) as Hall.
    rewrite Forall_forall in Hall.
    apply list_elem_of_In in Hin. specialize (Hall _ Hin v0).
    simpl in Hall. unfold wp in Hall. now rewrite Hf in Hall. }
  destruct (valid_produced d0 Hprod) as (b & Hb & Herr).
  rewrite Hv in Hb. injection Hb as <-.
  split.
  - rewrite lookup_insert_ne by done. now apply Herr.
  - exists name, f, v0, v1, d0. repeat split; auto.
    now rewrite lookup_insert_eq.
Qed.

End ExtractorClaims.

Example friendly_extraction :
  (extract_article Sample.friendly Sample.proc "https://example.org/a" Sample.start).1
  = Ok (Some (<["extraction_method" := VStr "standard"]>
                (_build_article_result Sample.story None))).
Proof. vm_compute. reflexivity. Qed.

Example hostile_extraction :
  (extract_article Sample.hostile Sample.proc "https://example.org/a" Sample.start).1
  = Ok None.
Proof. vm_compute. reflexivity. Qed.

Section AdvancedFacts.

Variable E : env.
Variable self : processor.

(** The homepage visit returns whatever the request does, having made that
    one request, and slept when it was answered. *)
Lemma homepage_calls domain w :
  wp (visit_homepage E domain)
     (fun _ w1 => exists wh mid,
        calls wh = calls w ++ [HttpGet domain 30]
        /\ match http_get E domain 30 wh with
           | Raise _ => mid = []
           | Ok _ => mid = [Sleep 2 4]
           end
        /\ calls w1 = calls wh ++ mid)
     (fun _ _ => False) w.
Proof.
  unfold visit_homepage. apply wp_try. wp_step. wp_step. cbv beta.
  wp_step. apply wp_ask.
  set (wh := called _ _).
  destruct (http_get E domain 30 wh) as [r|e] eqn:Hget.
  - wp_auto. exists wh, [Sleep 2 4]. rewrite Hget. now simpl.
  - wp_auto. exists wh, []. rewrite Hget. simpl. now rewrite app_nil_r.
Qed.

(** The target request is made once; any other status than 200 ends the
    technique there, and only the request itself can raise. *)
Lemma target_calls url w1 :
  exists wt, calls wt = calls w1 ++ [HttpGet url 45] /\
  wp (visit_target E url)
     (fun d w' =>
        forall response,
          http_get E url 45 wt = Ok response ->
          status_code response <> 200 ->
          d = failure ("Failed with status code "
                       +:+ pretty (status_code response)) VNone
          /\ calls w' = calls wt)
     (fun e _ => http_get E url 45 wt = Raise e) w1.
Proof.
  exists (called (logged w1 "info"
            ("[ADVANCED] Step 2: Visiting target article: " +:+ url))
          (HttpGet url 45)).
  split; [done|].
  unfold visit_target. wp_step. wp_step. cbv beta. wp_step. apply wp_ask.
  destruct (http_get E url 45 _) as [r|e] eqn:Hget; [|done].
  wp_step. wp_step. cbv beta.
  destruct (status_code r =? 200) eqn:Hs; simpl.
  - apply Z.eqb_eq in Hs.
    wp_auto; intros response Heq Hne; congruence.
  - wp_auto. intros response Heq _. injection Heq as <-. now simpl.
Qed.

(** [_extract_advanced] on a url that parses. *)
Lemma advanced_calls url parsed w :
  Url.urlparse url = Ok parsed ->
  wp (_extract_advanced E self url)
     (fun d w' => exists wh wt mid,
        calls wh = calls w
                   ++ [HttpGet (Url.scheme parsed +:+ "://" +:+ Url.netloc parsed) 30]
        /\ match http_get E (Url.scheme parsed +:+ "://" +:+ Url.netloc parsed)
                           30 wh with
           | Raise _ => mid = []
           | Ok _ => mid = [Sleep 2 4]
           end
        /\ calls wt = calls wh ++ mid ++ [HttpGet url 45]
        /\ forall response,
             http_get E url 45 wt = Ok response ->
             status_code response <> 200 ->
             d = failure ("Failed with status code "
                          +:+ pretty (status_code response)) VNone
             /\ calls w' = calls wt)
     (fun _ _ => False) w.
Proof.
  intros Hparse. unfold _extract_advanced. rewrite Hparse.
  wp_step. wp_step. wp_step. cbv beta. wp_step. wp_step. cbv beta.
  wp_step. wp_step. cbv beta. wp_step.
  eapply wp_mono; [| |apply homepage_calls]; cbv beta; [|done].
  intros _ w1 (wh & mid & Hwh & Hmid & Hw1).
  destruct (target_calls url w1) as (wt & Hwt & Hwp).
  assert (Hcalls : calls wt = calls wh ++ mid ++ [HttpGet url 45]).
  { rewrite Hwt, Hw1. now rewrite <- app_assoc. }
  eapply wp_mono; [| |exact Hwp]; cbv beta.
  - intros d w' Hd. exists wh, wt, mid. auto.
  - intros e w' He. wp_auto. exists wh, wt, mid.
    repeat (split; [assumption|]).
    intros response Hok. congruence.
Qed.

End AdvancedFacts.

Section AdvancedClaims.

Variable E : env.
Variable self : processor.

(** C6. In [_extract_advanced], on a url that [urlparse] accepts: the
    homepage is requested once; whether that request is answered or raises,
    the technique goes on to request the target url (an exception of the
    homepage visit is logged and dropped).  When the target request is
    answered with a status other than 200 the technique returns the failure
    dictionary, whose text is [None] and which the validity check rejects,
    and makes no further call: the target is requested once, never again. *)
Theorem advanced_homepage_swallowed_target_once url parsed w :
  Url.urlparse url = Ok parsed ->
  exists d w' wh wt mid,
    _extract_advanced E self url w = (Ok d, w')
    /\ calls wh = calls w
                  ++ [HttpGet (Url.scheme parsed +:+ "://" +:+ Url.netloc parsed) 30]
    /\ match http_get E (Url.scheme parsed +:+ "://" +:+ Url.netloc parsed)
                       30 wh with
       | Raise _ => mid = []
       | Ok _ => mid = [Sleep 2 4]
       end
    /\ calls wt = calls wh ++ mid ++ [HttpGet url 45]
    /\ forall response,
         http_get E url 45 wt = Ok response ->
         status_code response <> 200 ->
         d = failure ("Failed with status code "
                      +:+ pretty (status_code response)) VNone
         /\ d !! "text" = Some VNone
         /\ _is_valid_result d = Ok false
         /\ calls w' = calls wt.
Proof.
  intros Hparse.
  destruct (wp_run _ _ _ _ (advanced_calls E self url parsed w Hparse))
    as [(d & w' & Heq & wh & wt & mid & Hwh & Hmid & Hwt & Hd)
       |(e & w' & _ & [])].
  exists d, w', wh, wt, mid. repeat (split; [assumption|]).
  intros response Hok Hstatus.
  destruct (Hd response Hok Hstatus) as [-> Hc].
  split; [reflexivity|]. split; [apply failure_text|].
  split; [apply valid_failure_none | exact Hc].
Qed.

End AdvancedClaims.

(** The friendly site: the first technique succeeds, and the returned
    dictionary has the properties C2 and C10 state. *)
Lemma extract_article_text_above_minimum_witness :
  exists r w',
    extract_article Sample.friendly Sample.proc "https://example.org/a"
                    Sample.start = (Ok (Some r), w')
    /\ exists text, r !! "text" = Some (VStr text)
                    /\ MIN_TEXT_LENGTH < len (strip text).
Proof.
  eexists _, _. split; [vm_compute; reflexivity|].
  refine (proj1 (extract_article_text_above_minimum
                   Sample.friendly Sample.proc "https://example.org/a"
                   Sample.start _ _ _)).
  vm_compute. reflexivity.
Defined.

Lemma extract_article_method_and_error_witness :
  exists r w',
    extract_article Sample.friendly Sample.proc "https://example.org/a"
                    Sample.start = (Ok (Some r), w')
    /\ r !! "error" = Some VNone.
Proof.
  eexists _, _. split; [vm_compute; reflexivity|].
  refine (proj1 (extract_article_method_and_error
                   Sample.friendly Sample.proc "https://example.org/a"
                   Sample.start _ _ _)).
  vm_compute. reflexivity.
Defined.

(** The hostile site: the homepage refuses the connection, the article
    answers 403, and the advanced technique has made exactly these two
    requests when it returns its failure. *)
Lemma advanced_homepage_swallowed_target_once_witness :
  Url.urlparse "https://example.org/a" = Ok (Url.Parsed "https" "example.org")
  /\ exists d w',
       _extract_advanced Sample.hostile Sample.proc "https://example.org/a"
                         Sample.start = (Ok d, w')
       /\ _is_valid_result d = Ok false
       /\ calls w' = [ HttpGet "https://example.org" 30;
                       HttpGet "https://example.org/a" 45 ].
Proof.
  split; [reflexivity|].
  destruct (advanced_homepage_swallowed_target_once
              Sample.hostile Sample.proc "https://example.org/a"
              (Url.Parsed "https" "example.org") Sample.start eq_refl)
    as (d & w' & wh & wt & mid & Heq & Hwh & Hmid & Hwt & Hd).
  exists d, w'. split; [exact Heq|].
  simpl in Hmid. subst mid.
  destruct (Hd (Response 403 EmptyString) eq_refl ltac:(discriminate))
    as (_ & _ & Hv & Hc).
  split; [exact Hv|].
  rewrite Hc, Hwt, Hwh. reflexivity.
Defined.

(** ** The Strategy Classifier *)

Lemma find_existsb {A} (f : A -> bool) (l : list A) :
  existsb f l = match List.find f l with Some _ => true | None => false end.
Proof.
  induction l as [|a l IH]; simpl; [done|].
  destruct (f a); [done | exact IH].
Qed.

Lemma first_found_existsb patterns string_ fl :
  existsb (fun p => Re.matches p string_ fl) patterns
  = match first_found patterns string_ fl with
    | Some _ => true
    | None => false
    end.
Proof. apply find_existsb. Qed.

Lemma debug_log_returns self message (Q : unit -> world -> Prop) R w :
  (forall w', quiet w w' -> Q tt w') -> wp (debug_log self message) Q R w.
Proof.
  intros HQ. unfold debug_log.
  destruct (debug_mode self) as [[|]|]; wp_auto; auto.
Qed.

(** [_is_wordpress_site] returns the disjunction of its checks, whoever
    runs it and wherever, and only writes log lines. *)
Lemma wordpress_verdict self html_content url w :
  wp (_is_wordpress_site self html_content url)
     (fun b w' => b = is_templated_blog html_content url /\ quiet w w')
     (fun _ _ => False) w.
Proof.
  unfold _is_wordpress_site, is_templated_blog, wordpress_signals.
  cbn [existsb].
  rewrite !first_found_existsb, find_existsb.
  wp_step. apply debug_log_returns. intros w0 Hq0.
  repeat (wp_step; cbv beta; try (apply debug_log_returns; intros));
    simpl; split; auto;
    eauto using quiet_trans, quiet_logged_r.
Qed.

(** C9. [_is_wordpress_site] is a function of its two arguments: run by any
    two processors (with or without a [debug_mode]) in any two worlds on the
    same html and url, it returns, and returns the same boolean, the
    disjunction of its checks on the html and the url. *)
Theorem is_wordpress_site_pure self1 self2 w1 w2 html_content url :
  exists b : bool,
    (_is_wordpress_site self1 html_content url w1).1 = Ok b
    /\ (_is_wordpress_site self2 html_content url w2).1 = Ok b
    /\ b = is_templated_blog html_content url.
Proof.
  exists (is_templated_blog html_content url).
  pose proof (wordpress_verdict self1 html_content url w1) as H1.
  pose proof (wordpress_verdict self2 html_content url w2) as H2.
  unfold wp in H1, H2.
  destruct (_is_wordpress_site self1 _ _ _) as [[b1|e1] w1'];
    destruct (_is_wordpress_site self2 _ _ _) as [[b2|e2] w2']; try done.
  destruct H1 as [-> _], H2 as [-> _]. done.
Qed.

(** The strategy choice on a url whose network location can be read (or on
    no url at all): extract for a templated blog, for a complex and deeply
    nested layout, and for a denied domain; minimal otherwise. *)
Lemma strategy_choice self html_content url matched w :
  domain_match url = Ok matched ->
  (_determine_best_strategy self html_content url w).1
  = Ok (if (is_templated_blog html_content url
            || (has_complex_layout html_content
                && (2 <=? nested_level html_content))
            || matched)%bool
        then "extract" else "minimal").
Proof.
  intros Hm. unfold _determine_best_strategy.
  pose proof (wordpress_verdict self html_content url w) as H.
  unfold wp in H. unfold mbind, M_bind, bind.
  destruct (_is_wordpress_site self _ _ _) as [[b|e] w']; [|done].
  destruct H as [-> _].
  destruct (is_templated_blog html_content url); [done|].
  unfold lift. rewrite Hm. simpl.
  now destruct (_ || _)%bool.
Qed.

(** The strategy choice on a url that [urlparse] rejects, for a page that
    is no templated blog: the exception leaves the function. *)
Lemma strategy_choice_raises self html_content url e w :
  is_templated_blog html_content url = false ->
  domain_match url = Raise e ->
  (_determine_best_strategy self html_content url w).1 = Raise e.
Proof.
  intros Hb Hm. unfold _determine_best_strategy.
  pose proof (wordpress_verdict self html_content url w) as H.
  unfold wp in H. unfold mbind, M_bind, bind.
  destruct (_is_wordpress_site self _ _ _) as [[b|e'] w']; [|done].
  destruct H as [-> _]. rewrite Hb.
  unfold lift. now rewrite Hm.
Qed.

(** C4, at the input on which the code leaves the claim: an empty page at
    the url http://[ is no templated blog, has no complex layout, and its
    url names no denied domain, and [_determine_best_strategy] returns
    neither strategy: [urlparse] raises and nothing catches it. *)
Theorem determine_best_strategy_raises_on_bad_url :
  (_determine_best_strategy Sample.proc EmptyString "http://[" Sample.start).1
  = Raise (Exn ValueError "Invalid IPv6 URL")
  /\ is_templated_blog EmptyString "http://[" = false
  /\ has_complex_layout EmptyString = false.
Proof. vm_compute. repeat split. Qed.

(** ** Strings: replacement *)

Lemma append_nil (b : string) : EmptyString +:+ b = b.
Proof. reflexivity. Qed.

Lemma append_cons c (a b : string) : String c a +:+ b = String c (a +:+ b).
Proof. reflexivity. Qed.

Lemma append_assoc (a b c : string) : (a +:+ b) +:+ c = a +:+ (b +:+ c).
Proof.
  induction a as [|x a IH]; [done|].
  rewrite !append_cons. now f_equal.
Qed.

Lemma append_empty_r (a : string) : a +:+ EmptyString = a.
Proof.
  induction a as [|x a IH]; [done|].
  rewrite append_cons. now f_equal.
Qed.

Lemma prefix_cons a p c t :
  String.prefix (String a p) (String c t)
  = (Ascii.eqb a c && String.prefix p t)%bool.
Proof.
  simpl. destruct (Ascii.eqb_spec a c) as [->|Hne].
  - destruct (ascii_dec c c); [done | congruence].
  - destruct (ascii_dec a c); [congruence | done].
Qed.

(** [replace] passes over a character at which no occurrence starts. *)
Lemma replace_from_skip_char old new c t :
  String.prefix old (String c t) = false ->
  replace_from 0 old new (String c t) = String c (replace_from 0 old new t).
Proof. intros H. cbn [replace_from]. now rewrite H. Qed.

Lemma replace_from_hit old new c t :
  String.prefix old (String c t) = true ->
  replace_from 0 old new (String c t)
  = new +:+ replace_from (String.length old - 1) old new t.
Proof. intros H. cbn [replace_from]. now rewrite H. Qed.

(** Without an occurrence, [replace] changes nothing. *)
Lemma replace_absent old new s :
  contains old s = false -> replace old new s = s.
Proof.
  unfold replace. induction s as [|c t IH]; [done|].
  intros H. cbn [contains] in H. apply orb_false_iff in H as [Hp Ht].
  rewrite replace_from_skip_char by done. now rewrite IH.
Qed.

Lemma prefix_nil s : String.prefix EmptyString s = true.
Proof. now destruct s. Qed.

Lemma prefix_app_long old s x :
  (String.length old <= String.length s)%nat ->
  String.prefix old (s +:+ x) = String.prefix old s.
Proof.
  revert s. induction old as [|a old IH]; intros s Hlen.
  - now rewrite !prefix_nil.
  - destruct s as [|c t]; [simpl in Hlen; lia|].
    rewrite append_cons, !prefix_cons. f_equal. apply IH.
    simpl in Hlen. lia.
Qed.

Lemma prefix_app_short old s x :
  (String.length s < String.length old)%nat ->
  String.prefix s old = false -> String.prefix old (s +:+ x) = false.
Proof.
  revert s. induction old as [|a old IH]; intros s Hlen H.
  - simpl in Hlen. lia.
  - destruct s as [|c t]; [done|].
    rewrite append_cons, prefix_cons. rewrite prefix_cons in H.
    apply andb_false_iff in H as [H|H].
    + destruct (Ascii.eqb_spec c a) as [->|Hne]; [done|].
      destruct (Ascii.eqb_spec a c) as [->|_]; [done|done].
    + rewrite (IH t); [apply andb_false_r | simpl in Hlen; lia | done].
Qed.

Lemma replace_quiet_before old new s x :
  quiet_before old s = true ->
  replace_from 0 old new (s +:+ x) = s +:+ replace_from 0 old new x.
Proof.
  induction s as [|c t IH]; [done|].
  intros H. cbn [quiet_before] in H. apply andb_true_iff in H as [Hc Ht].
  rewrite append_cons, replace_from_skip_char.
  - now rewrite IH.
  - rewrite <- append_cons.
    apply negb_true_iff in Hc.
    destruct (Nat.leb _ _) eqn:Hlen.
    + apply Nat.leb_le in Hlen. now rewrite prefix_app_long.
    + apply Nat.leb_gt in Hlen. now apply prefix_app_short.
Qed.

Lemma prefix_refl s : String.prefix s s = true.
Proof.
  induction s as [|c t IH]; [done|].
  rewrite prefix_cons, IH. now destruct (Ascii.eqb_spec c c).
Qed.

Lemma replace_from_pass old new s x :
  replace_from (String.length s) old new (s +:+ x) = replace_from 0 old new x.
Proof.
  induction s as [|c t IH]; [done|].
  rewrite append_cons. cbn [String.length replace_from]. exact IH.
Qed.

Lemma replace_from_hit_app old new x :
  old <> EmptyString ->
  replace_from 0 old new (old +:+ x) = new +:+ replace_from 0 old new x.
Proof.
  destruct old as [|a o]; [done|]. intros _.
  rewrite append_cons, replace_from_hit.
  - cbn [String.length]. rewrite Nat.sub_1_r. cbn [Nat.pred].
    now rewrite replace_from_pass.
  - rewrite <- append_cons, prefix_app_long by done. apply prefix_refl.
Qed.

Section ReplaceTwice.

(** Replacing [old] by [n +:+ old], where [old] starts with [a], no
    occurrence of [old] starts inside [n], and the first character [n0] of
    [n] does not occur in [old] after its first character. *)
Variables (a : ascii) (o : string) (n0 : ascii) (n' : string).
Let old : string := String a o.
Let n : string := String n0 n'.

Hypothesis n_quiet : quiet_before old n = true.
Hypothesis n0_fresh :
  forallb (fun c => negb (Ascii.eqb c n0)) (list_ascii_of_string o) = true.

Lemma prefix_through_replace p t :
  forallb (fun c => negb (Ascii.eqb c n0)) (list_ascii_of_string p) = true ->
  String.prefix p (replace_from 0 old (n +:+ old) t) = true ->
  String.prefix p t = true.
Proof.
  revert t. induction p as [|c p IH]; intros t Hp H; [apply prefix_nil|].
  cbn [list_ascii_of_string forallb] in Hp.
  apply andb_true_iff in Hp as [Hc Hp].
  destruct t as [|x t]; [done|].
  destruct (String.prefix old (String x t)) eqn:Hhit.
  - rewrite replace_from_hit in H by done.
    unfold n in H. rewrite append_cons, append_cons, prefix_cons in H.
    apply andb_true_iff in H as [H _].
    apply negb_true_iff in Hc. congruence.
  - rewrite replace_from_skip_char in H by done.
    rewrite prefix_cons in H |- *.
    apply andb_true_iff in H as [-> H]. simpl. now apply IH.
Qed.

Lemma replace_twice_from h k :
  replace_from 0 old (n +:+ old) (replace_from k old (n +:+ old) h)
  = replace_from k old (n +:+ n +:+ old) h.
Proof.
  revert k. induction h as [|c t IH]; intros k; [done|].
  destruct k as [|k]; [|cbn [replace_from]; apply IH].
  destruct (String.prefix old (String c t)) eqn:Hhit.
  - rewrite (replace_from_hit old (n +:+ old) c t Hhit).
    rewrite (replace_from_hit old (n +:+ n +:+ old) c t Hhit).
    rewrite append_assoc, replace_quiet_before by exact n_quiet.
    rewrite replace_from_hit_app by done.
    rewrite IH. now rewrite !append_assoc.
  - rewrite (replace_from_skip_char old (n +:+ old) c t Hhit).
    rewrite (replace_from_skip_char old (n +:+ n +:+ old) c t Hhit).
    rewrite replace_from_skip_char; [now rewrite IH|].
    apply not_true_is_false. intros H.
    unfold old in H, Hhit. rewrite prefix_cons in H, Hhit.
    apply andb_true_iff in H as [Ha H].
    apply prefix_through_replace in H; [|exact n0_fresh].
    now rewrite Ha, H in Hhit.
Qed.

End ReplaceTwice.

(** ** The layout-repair stylesheet *)

Lemma layout_repair_css_head :
  _get_layout_repair_css
  = String (ascii_of_nat 10) (drop 1 _get_layout_repair_css).
Proof. vm_compute. reflexivity. Qed.

Lemma layout_repair_css_quiet :
  quiet_before "</head>" (String (ascii_of_nat 10) (drop 1 _get_layout_repair_css))
  = true.
Proof. vm_compute. reflexivity. Qed.

(** The injection is the replacement, with or without an occurrence. *)
Lemma inject_is_replace h :
  inject_layout_repair h
  = replace "</head>" (_get_layout_repair_css +:+ "</head>") h.
Proof.
  unfold inject_layout_repair.
  destruct (contains "</head>" h) eqn:H; [done|].
  now rewrite replace_absent.
Qed.

Lemma inject_twice_is_replace h :
  inject_layout_repair (inject_layout_repair h)
  = replace "</head>"
            (_get_layout_repair_css +:+ _get_layout_repair_css +:+ "</head>") h.
Proof.
  rewrite !inject_is_replace. unfold replace.
  rewrite layout_repair_css_head.
  apply (replace_twice_from "<" "/head>" (ascii_of_nat 10)
           (drop 1 _get_layout_repair_css) layout_repair_css_quiet).
  vm_compute. reflexivity.
Qed.

(** C5, as the code has it.  The injection replaces every closing head tag
    by the stylesheet followed by that tag, and is not idempotent: applied
    twice, it leaves two copies of the stylesheet, one after the other,
    before every closing head tag. *)
Theorem layout_repair_injection_twice h :
  inject_layout_repair h
  = replace "</head>" (_get_layout_repair_css +:+ "</head>") h
  /\ inject_layout_repair (inject_layout_repair h)
     = replace "</head>"
               (_get_layout_repair_css +:+ _get_layout_repair_css +:+ "</head>")
               h.
Proof. split; [apply inject_is_replace | apply inject_twice_is_replace]. Qed.

(** C5 as stated fails: on a document with one head, one injection leaves
    one copy of the stylesheet and a second injection leaves two. *)
Lemma layout_repair_injection_not_idempotent :
  count _get_layout_repair_css
        (inject_layout_repair "<html><head></head><body></body></html>") = 1%nat
  /\ count _get_layout_repair_css
           (inject_layout_repair
              (inject_layout_repair "<html><head></head><body></body></html>"))
     = 2%nat
  /\ inject_layout_repair
       (inject_layout_repair "<html><head></head><body></body></html>")
     <> inject_layout_repair "<html><head></head><body></body></html>".
Proof.
  split; [vm_compute; reflexivity|].
  split; [vm_compute; reflexivity|].
  intros H. apply (f_equal String.length) in H. vm_compute in H. discriminate.
Qed.

(** ** The quality gate and the fallback *)

Section FallbackFacts.

Variable E : env.
Variable self : processor.

Lemma extracted_has_text url w d w' :
  extract_article E self url w = (Ok (Some d), w') ->
  has_text (Some d) = true.
Proof.
  intros Hrun.
  destruct (extract_article_ladder E self url w) as (res & w1 & w2 & Heq & Hl & _).
  rewrite Hrun in Heq. injection Heq as <- <-.
  destruct (ladder_some _ _ _ _ _ _ Hl eq_refl)
    as (name & f & v0 & v1 & d0 & _ & _ & Hv & ->).
  apply valid_iff in Hv as (text & Ht & Hlen).
  unfold has_text, dict_get.
  rewrite lookup_insert_ne, Ht by done.
  apply andb_true_iff. split.
  - apply negb_true_iff, bool_decide_eq_false, insert_non_empty.
  - destruct text; [now vm_compute in Hlen | done].
Qed.

Lemma extract_article_returns url w :
  exists res w', extract_article E self url w = (Ok res, w').
Proof.
  destruct (extract_article_ladder E self url w) as (res & _ & w' & H & _).
  eauto.
Qed.

(** The minimal branch when the gate rejects its output. *)
Lemma prepare_minimal_fallback html_content url include_images w :
  _is_valid_processed_html (minimal html_content url include_images) = false ->
  exists article_data w0 w1,
    quiet w w0
    /\ extract_article E self url w0 = (Ok article_data, w1)
    /\ prepare_minimal E self html_content url include_images w
       = match article_data with
         | Some d => (rebuild E d url include_images, w1)
         | None => (Ok (minimal html_content url include_images), w1)
         end.
Proof.
  intros Hgate.
  set (w0 := logged (logged w "info"
     "Using 'minimal' strategy - preserving layout with selective cleaning")
     "info" "Minimal strategy produced poor results, falling back to extract").
  destruct (extract_article_returns url w0) as (res & w1 & Hrun).
  exists res, w0, w1. split; [subst w0; auto|]. split; [exact Hrun|].
  unfold prepare_minimal. rewrite Hgate.
  unfold mbind, M_bind, bind, log, log_at. cbn [negb].
  match goal with
  | |- context [extract_article E self url ?v] => change v with w0
  end.
  rewrite Hrun.
  destruct res as [d|]; [|done].
  now rewrite (extracted_has_text _ _ _ _ Hrun).
Qed.

End FallbackFacts.

Section FallbackClaims.

Variable E : env.
Variable self : processor.

(** C3, as the code has it.  When the strategy is not extract and the quality
    gate rejects the output of the minimal transform, the Article Extractor
    is run (in the world as it is then, log lines apart); when it returns an
    article, what goes on to the stylesheet injection and the rasterizer is
    the output of the extract transform on that article (or its exception),
    and when it returns nothing, the output of the minimal transform is
    kept. *)
Theorem minimal_gate_failure_falls_back html_content url include_images w :
  _is_valid_processed_html (minimal html_content url include_images) = false ->
  exists article_data w0 w1,
    quiet w w0
    /\ extract_article E self url w0 = (Ok article_data, w1)
    /\ prepare_minimal E self html_content url include_images w
       = match article_data with
         | Some d =>
             (_build_clean_article_html E
                (default (VStr EmptyString) (d !! "title"))
                (default (VStr EmptyString) (d !! "text"))
                (dict_get d "top_image")
                (default (VList []) (d !! "images"))
                url include_images, w1)
         | None => (Ok (minimal html_content url include_images), w1)
         end.
Proof. apply prepare_minimal_fallback. Qed.

End FallbackClaims.

Lemma prefix_app_same a b y :
  String.prefix (a +:+ b) (a +:+ y) = String.prefix b y.
Proof.
  induction a as [|c a IH]; [done|].
  rewrite !append_cons, prefix_cons, IH.
  now destruct (Ascii.eqb_spec c c).
Qed.

Lemma prefix_app_self a y : String.prefix a (a +:+ y) = true.
Proof. rewrite prefix_app_long by done. apply prefix_refl. Qed.

(** Every document the extract transform builds opens with the doctype and
    an indented html tag. *)
Lemma built_html_opening E title text top_image images url include_images s :
  _build_clean_article_html E title text top_image images url include_images
  = Ok s ->
  String.prefix ("<!DOCTYPE html>" +:+ nl +:+ "        ") s = true.
Proof.
  unfold _build_clean_article_html.
  destruct text as [|text|]; try done.
  destruct (if (include_images && truthy images)%bool then _ else _); [|done].
  intros [= <-]. cbv zeta.
  rewrite !prefix_app_same. apply prefix_app_self.
Qed.

(** C3 as stated fails.  A page of one paragraph, the minimal strategy asked
    for, and a site no technique gets through to: the gate rejects the output
    of the minimal transform (it holds no content container), the extractor
    returns nothing, and what goes on to the rasterizer is the output of the
    minimal transform with the stylesheet injected, which is no output of
    the extract transform. *)
Lemma minimal_output_rasterized_when_extraction_fails :
  (prepare_html Sample.hostile Sample.proc "<p>Hello</p>" "wkhtmltopdf"
                "https://example.org/a" false "minimal" Sample.start).1
  = Ok (inject_layout_repair (minimal "<p>Hello</p>" "https://example.org/a" false),
        "minimal")
  /\ _is_valid_processed_html (minimal "<p>Hello</p>" "https://example.org/a" false)
     = false
  /\ forall E title text top_image images include_images,
       _build_clean_article_html E title text top_image images
                                 "https://example.org/a" include_images
       <> Ok (minimal "<p>Hello</p>" "https://example.org/a" false).
Proof.
  split; [vm_compute; reflexivity|].
  split; [vm_compute; reflexivity|].
  intros E title text top_image images include_images H.
  apply built_html_opening in H. vm_compute in H. discriminate.
Qed.

(** The same page on the friendly site: the gate rejects the minimal output
    and the extract transform takes over. *)
Lemma minimal_gate_failure_falls_back_witness :
  exists article_data w0 w1,
    quiet Sample.start w0
    /\ extract_article Sample.friendly Sample.proc "https://example.org/a" w0
       = (Ok article_data, w1)
    /\ prepare_minimal Sample.friendly Sample.proc "<p>Hello</p>"
                       "https://example.org/a" false Sample.start
       = match article_data with
         | Some d =>
             (_build_clean_article_html Sample.friendly
                (default (VStr EmptyString) (d !! "title"))
                (default (VStr EmptyString) (d !! "text"))
                (dict_get d "top_image")
                (default (VList []) (d !! "images"))
                "https://example.org/a" false, w1)
         | None =>
             (Ok (minimal "<p>Hello</p>" "https://example.org/a" false), w1)
         end.
Proof.
  apply (minimal_gate_failure_falls_back Sample.friendly Sample.proc
           "<p>Hello</p>" "https://example.org/a" false Sample.start).
  vm_compute. reflexivity.
Defined.

(** ** Temporary files *)

Lemma only_shrinks_refl w : only_shrinks w w.
Proof. split; auto. Qed.

Lemma only_shrinks_trans w1 w2 w3 :
  only_shrinks w1 w2 -> only_shrinks w2 w3 -> only_shrinks w1 w3.
Proof. intros [F1 L1] [F2 L2]. split; auto. Qed.

Lemma gone_or_refused_stays p w w' :
  only_shrinks w w' -> gone_or_refused p w -> gone_or_refused p w'.
Proof.
  intros [F L] [H | [e H]]; [left; auto | right; exists e; auto].
Qed.

Section CleanupFacts.

Variable E : env.

Lemma cleanup_one_spec file_path w :
  wp (cleanup_one E file_path)
     (fun _ w' =>
        only_shrinks w w'
        /\ forall p, p <> EmptyString -> file_path = Some p ->
                     gone_or_refused p w')
     (fun _ _ => False) w.
Proof.
  unfold cleanup_one, os_unlink.
  destruct file_path as [path|]; [|wp_auto; split; [apply only_shrinks_refl|done]].
  wp_step. wp_step. cbv beta.
  destruct (nonempty path && exists_file path w)%bool eqn:Hex.
  - wp_auto.
    + (* the system refuses *)
      split; [split; simpl; auto; intros; apply in_or_app; auto|].
      intros p _ [= <-]. right. eexists. simpl. apply in_or_app. right.
      now left.
    + (* the file is deleted *)
      split.
      * split; simpl; [|intros; apply in_or_app; auto].
        intros q Hq. destruct (decide (path = q)) as [->|Hne].
        -- apply lookup_delete_eq.
        -- now rewrite lookup_delete_ne.
      * intros p _ [= <-]. left. simpl. apply lookup_delete_eq.
    + (* the file vanished in between: the unlink raises *)
      split; [split; simpl; auto; intros; apply in_or_app; auto|].
      intros p _ [= <-]. right.
      exists (Exn OSError "No such file or directory").
      simpl. apply in_or_app. right. now left.
  - wp_auto. split; [apply only_shrinks_refl|].
    intros p Hp [= ->]. left.
    apply andb_false_iff in Hex as [Hex|Hex].
    + now destruct p.
    + unfold exists_file in Hex. apply bool_decide_eq_false in Hex.
      destruct (fs w !! p) eqn:Hl; [|done]. exfalso. apply Hex. eauto.
Qed.

Lemma cleanup_spec file_paths w :
  wp (_cleanup_temp_files E file_paths)
     (fun _ w' =>
        only_shrinks w w'
        /\ forall p, p <> EmptyString -> In (Some p) file_paths ->
                     gone_or_refused p w')
     (fun _ _ => False) w.
Proof.
  revert w. induction file_paths as [|a rest IH]; intros w; simpl.
  - wp_auto. split; [apply only_shrinks_refl | done].
  - wp_step.
    eapply wp_mono; [| |apply cleanup_one_spec]; cbv beta; [|done].
    intros _ w1 [Hs1 H1].
    eapply wp_mono; [| |apply IH]; cbv beta; [|done].
    intros _ w2 [Hs2 H2]. split; [eapply only_shrinks_trans; eauto|].
    intros p Hp [->|Hin].
    + eapply gone_or_refused_stays; eauto.
    + auto.
Qed.

End CleanupFacts.
